(** * Booking backend: availability ledger and booking flow

    A shallow embedding of the service functions of [src/project]:
    [bookAppointment], [cancelAppointment], [updateAppointment],
    [updateAvailability], [checkAvailability] and [getAvailableTimeSlots].

    The services talk to a relational store through the Prisma client.  The
    store is modelled as a record of tables (lists of rows in insertion
    order, with auto-increment counters); every client call may be refused
    by the engine, in which case it raises and writes nothing.  Python
    exceptions are an explicit outcome of the computation, and [try/except]
    is a combinator on computations. *)

From Stdlib Require Import ZArith List String Bool Lia DecimalString Permutation Sorted.
Import ListNotations.
Open Scope string_scope.
Open Scope list_scope.
Open Scope Z_scope.

(** ** Data model *)

(** A naive Python [datetime]: microseconds on the proleptic time line
    (the resolution of [datetime]).  A [date] is a day ordinal. *)
Definition datetime := Z.
Definition date := Z.

Definition usec_per_day : Z := 86400000000.

(** [datetime.combine(d, datetime.min.time())]: 00:00:00.000000 of [d]. *)
Definition combine_min (d : date) : datetime := d * usec_per_day.

(** [datetime.combine(d, datetime.max.time())]: 23:59:59.999999 of [d]. *)
Definition combine_max (d : date) : datetime := d * usec_per_day + (usec_per_day - 1).

Inductive AppointmentStatus := PENDING | CONFIRMED | CANCELLED | COMPLETED.

Definition status_eqb (a b : AppointmentStatus) : bool :=
  match a, b with
  | PENDING, PENDING | CONFIRMED, CONFIRMED
  | CANCELLED, CANCELLED | COMPLETED, COMPLETED => true
  | _, _ => false
  end.

Record Availability := mkAvailability {
  av_id : Z;
  av_professionalId : Z;
  av_datetime : datetime;
  av_isAvailable : bool
}.

Record Appointment := mkAppointment {
  ap_id : Z;
  ap_userId : Z;
  ap_professionalId : Z;
  ap_scheduledTime : datetime;
  ap_status : AppointmentStatus
}.

Record Notification := mkNotification {
  nt_id : Z;
  nt_userId : Z;
  nt_message : string;
  nt_createdAt : datetime;
  nt_isRead : bool
}.

Record UserProfile := mkUserProfile {
  up_id : Z;
  up_firstName : string;
  up_lastName : string
}.

Record ProfessionalProfile := mkProfessionalProfile {
  pp_id : Z;
  pp_profileId : Z
}.

(** The persisted state: one list per table, rows in insertion order, and
    the next value of each auto-increment key the services create rows in. *)
Record DB := mkDB {
  availabilities : list Availability;
  appointments : list Appointment;
  notifications : list Notification;
  professionals : list ProfessionalProfile;
  userProfiles : list UserProfile;
  next_availability_id : Z;
  next_appointment_id : Z;
  next_notification_id : Z
}.

Definition set_availabilities (db : DB) (l : list Availability) : DB :=
  mkDB l (appointments db) (notifications db) (professionals db)
       (userProfiles db) (next_availability_id db) (next_appointment_id db)
       (next_notification_id db).

Definition set_appointments (db : DB) (l : list Appointment) : DB :=
  mkDB (availabilities db) l (notifications db) (professionals db)
       (userProfiles db) (next_availability_id db) (next_appointment_id db)
       (next_notification_id db).

(** ** Exceptions and the computation monad *)

Inductive Exn :=
| PrismaError (text : string)       (* raised by the client on an engine error *)
| ValidationError (text : string)   (* pydantic: a field failed validation *)
| AttributeError (text : string).   (* attribute access on [None] *)

(** [str(e)] *)
Definition exn_text (e : Exn) : string :=
  match e with
  | PrismaError t | ValidationError t | AttributeError t => t
  end.

Inductive Outcome (A : Type) :=
| Returned (a : A)
| Raised (e : Exn).
Arguments Returned {A} a.
Arguments Raised {A} e.

Definition M (A : Type) : Type := DB -> Outcome A * DB.

Definition ret {A} (a : A) : M A := fun db => (Returned a, db).

Definition raise {A} (e : Exn) : M A := fun db => (Raised e, db).

Definition bind {A B} (m : M A) (k : A -> M B) : M B :=
  fun db =>
    match m db with
    | (Returned a, db') => k a db'
    | (Raised e, db') => (Raised e, db')
    end.

(** [try: m  except Exception as e: ...]: the exception becomes a value;
    whatever [m] wrote before raising stays written. *)
Definition attempt {A} (m : M A) : M (Exn + A) :=
  fun db =>
    match m db with
    | (Returned a, db') => (Returned (inr a), db')
    | (Raised e, db') => (Returned (inl e), db')
    end.

Notation "x <- m ;; k" := (bind m (fun x => k))
  (at level 61, m at next level, right associativity).

(** ** The client calls the services issue *)

Inductive Call :=
| Availability_find_first (professionalId : Z) (t : datetime) (flag : option bool)
| Availability_find_many (professionalId : option Z) (day : option date)
| Availability_update (id : Z) (flag : bool)
| Availability_update_many_id (id : Z) (flag : bool)
| Availability_update_many_slot (t : datetime) (professionalId : Z) (flag : bool)
| Availability_create (professionalId : Z) (t : datetime) (flag : bool)
| Appointment_find_unique (id : Z)
| Appointment_create (userId professionalId : Z) (t : datetime)
| Appointment_update (id : Z) (status : AppointmentStatus) (t : option datetime)
| Notification_create (userId : Z) (message : string)
| Notification_create_many (rows : list (Z * string))
| ProfessionalProfile_find_unique (id : Z) (from to : datetime).

(** What lies outside [src/project]: the engine's refusals, the schema's
    column defaults, the clock, and the text the library renders for a
    [datetime]. *)
Record Platform := mkPlatform {
  (** [fault c db = Some text]: the engine refuses call [c] in state [db]
      and the client raises an error whose [str] is [text]. *)
  fault : Call -> DB -> option string;
  (** the schema's default of [Appointment.status] *)
  default_status : AppointmentStatus;
  (** [datetime.now()], [datetime.utcnow()] and the schema's [now()] *)
  clock : datetime;
  (** [str(t)] as an f-string renders it *)
  str_datetime : datetime -> string;
  (** [t.strftime('%Y-%m-%d %H:%M')] *)
  strftime_minute : datetime -> string;
  (** the text an f-string renders for a status *)
  str_status : AppointmentStatus -> string;
  (** whether pydantic takes an instance of another model class for a
      model-typed field (copying the fields it knows) or rejects it; the
      installed version decides *)
  coerces_model_instance : bool
}.

Section Services.

Variable env : Platform.

(** One client call: refused by the engine it raises and leaves the store
    as it was, otherwise it runs. *)
Definition gateway {A} (c : Call) (run : DB -> A * DB) : M A :=
  fun db =>
    match fault env c db with
    | Some text => (Raised (PrismaError text), db)
    | None => let (a, db') := run db in (Returned a, db')
    end.

(** *** Availability *)

Definition slot_matches (professionalId : Z) (t : datetime) (flag : option bool)
    (a : Availability) : bool :=
  (av_professionalId a =? professionalId) && (av_datetime a =? t) &&
  match flag with
  | Some b => Bool.eqb (av_isAvailable a) b
  | None => true
  end.

(** [Availability.prisma().find_first(where={professionalId, datetime[, isAvailable]})] *)
Definition availability_find_first (professionalId : Z) (t : datetime)
    (flag : option bool) : M (option Availability) :=
  gateway (Availability_find_first professionalId t flag)
    (fun db => (find (slot_matches professionalId t flag) (availabilities db), db)).

Definition set_flag (flag : bool) (a : Availability) : Availability :=
  mkAvailability (av_id a) (av_professionalId a) (av_datetime a) flag.

Definition set_flag_where (p : Availability -> bool) (flag : bool)
    (l : list Availability) : list Availability :=
  map (fun a => if p a then set_flag flag a else a) l.

Definition has_id (id : Z) (a : Availability) : bool := av_id a =? id.

(** [Availability.prisma().update(where={"id": id}, data={"isAvailable": flag})]:
    the updated row, or [None] when no row has that id. *)
Definition availability_update (id : Z) (flag : bool) : M (option Availability) :=
  gateway (Availability_update id flag)
    (fun db =>
       let l := set_flag_where (has_id id) flag (availabilities db) in
       (find (has_id id) l, set_availabilities db l)).

(** [Availability.prisma().update_many(where={"id": id}, data={"isAvailable": flag})]:
    the number of rows written. *)
Definition availability_update_many_id (id : Z) (flag : bool) : M Z :=
  gateway (Availability_update_many_id id flag)
    (fun db =>
       (Z.of_nat (List.length (filter (has_id id) (availabilities db))),
        set_availabilities db (set_flag_where (has_id id) flag (availabilities db)))).

(** [Availability.prisma().update_many(where={"datetime": t, "professionalId": p}, ...)] *)
Definition availability_update_many_slot (t : datetime) (professionalId : Z)
    (flag : bool) : M Z :=
  gateway (Availability_update_many_slot t professionalId flag)
    (fun db =>
       let p := slot_matches professionalId t None in
       (Z.of_nat (List.length (filter p (availabilities db))),
        set_availabilities db (set_flag_where p flag (availabilities db)))).

(** [Availability.prisma().create(data={professionalId, datetime, isAvailable})] *)
Definition availability_create (professionalId : Z) (t : datetime) (flag : bool)
    : M Availability :=
  gateway (Availability_create professionalId t flag)
    (fun db =>
       let row := mkAvailability (next_availability_id db) professionalId t flag in
       (row,
        mkDB (availabilities db ++ [row]) (appointments db) (notifications db)
             (professionals db) (userProfiles db)
             (next_availability_id db + 1) (next_appointment_id db)
             (next_notification_id db))).

(** *** Appointment *)

Definition appt_has_id (id : Z) (a : Appointment) : bool := ap_id a =? id.

(** [Appointment.prisma().find_unique(where={"id": id})] *)
Definition appointment_find_unique (id : Z) : M (option Appointment) :=
  gateway (Appointment_find_unique id)
    (fun db => (find (appt_has_id id) (appointments db), db)).

(** [Appointment.prisma().create(data={userId, professionalId, scheduledTime})]:
    the status column takes the schema's default. *)
Definition appointment_create (userId professionalId : Z) (t : datetime)
    : M Appointment :=
  gateway (Appointment_create userId professionalId t)
    (fun db =>
       let row := mkAppointment (next_appointment_id db) userId professionalId t
                                (default_status env) in
       (row,
        mkDB (availabilities db) (appointments db ++ [row]) (notifications db)
             (professionals db) (userProfiles db)
             (next_availability_id db) (next_appointment_id db + 1)
             (next_notification_id db))).

Definition apply_update (status : AppointmentStatus) (t : option datetime)
    (a : Appointment) : Appointment :=
  mkAppointment (ap_id a) (ap_userId a) (ap_professionalId a)
    (match t with Some t' => t' | None => ap_scheduledTime a end) status.

Definition update_appointments (id : Z) (status : AppointmentStatus)
    (t : option datetime) (l : list Appointment) : list Appointment :=
  map (fun a => if appt_has_id id a then apply_update status t a else a) l.

(** [Appointment.prisma().update(where={"id": id}, data={"status": s[, "scheduledTime": t]})]:
    the updated row, or [None] when no row has that id. *)
Definition appointment_update (id : Z) (status : AppointmentStatus)
    (t : option datetime) : M (option Appointment) :=
  gateway (Appointment_update id status t)
    (fun db =>
       let l := update_appointments id status t (appointments db) in
       (find (appt_has_id id) l, set_appointments db l)).

(** *** Notification *)

Definition append_notifications (rows : list (Z * string)) (db : DB) : DB :=
  fold_left
    (fun d (r : Z * string) =>
       mkDB (availabilities d) (appointments d)
            (notifications d ++
               [mkNotification (next_notification_id d) (fst r) (snd r)
                               (clock env) false])
            (professionals d) (userProfiles d)
            (next_availability_id d) (next_appointment_id d)
            (next_notification_id d + 1))
    rows db.

(** [Notification.prisma().create(data={"userId": u, "message": m, ...})];
    [isRead] is [False] and [createdAt] the current time, given or defaulted. *)
Definition notification_create (userId : Z) (message : string) : M Notification :=
  gateway (Notification_create userId message)
    (fun db =>
       (mkNotification (next_notification_id db) userId message (clock env) false,
        append_notifications [(userId, message)] db)).

(** [Notification.prisma().create_many(data=[...])]: the number of rows created. *)
Definition notification_create_many (rows : list (Z * string)) : M Z :=
  gateway (Notification_create_many rows)
    (fun db => (Z.of_nat (List.length rows), append_notifications rows db)).

(** ** bookAppointment_service.py *)

Record BookingResponse := mkBookingResponse {
  bk_success : bool;
  bk_message : string;
  bk_appointmentId : option Z
}.

Definition bookAppointment (userId professionalId : Z) (scheduledTime : datetime)
    : M BookingResponse :=
  availability <- availability_find_first professionalId scheduledTime (Some true) ;;
  match availability with
  | None =>
      ret (mkBookingResponse false "No available slots at the requested time." None)
  | Some availability =>
      created <- attempt (appointment_create userId professionalId scheduledTime) ;;
      match created with
      | inl e => ret (mkBookingResponse false (exn_text e) None)
      | inr new_appointment =>
          _ <- availability_update (av_id availability) false ;;
          _ <- notification_create professionalId
                 ("New appointment booked for " ++ str_datetime env scheduledTime)%string ;;
          ret (mkBookingResponse true "Appointment booked successfully."
                 (Some (ap_id new_appointment)))
      end
  end.

(** ** cancelAppointment_service.py *)

Record CancelBookingResponse := mkCancelBookingResponse {
  cn_success : bool;
  cn_message : string
}.

(** Attribute access on the result of a call that may be [None]. *)
Definition deref {A} (o : option A) (attr : string) : M A :=
  match o with
  | Some a => ret a
  | None =>
      raise (AttributeError
               ("'NoneType' object has no attribute '" ++ attr ++ "'")%string)
  end.

Definition cancelAppointment (appointment_id : Z) : M CancelBookingResponse :=
  appointment <- appointment_find_unique appointment_id ;;
  match appointment with
  | None => ret (mkCancelBookingResponse false "Appointment not found.")
  | Some appointment =>
      if status_eqb (ap_status appointment) CANCELLED
      then ret (mkCancelBookingResponse false "Appointment is already cancelled.")
      else
        updated <- appointment_update appointment_id CANCELLED None ;;
        updated_appointment <- deref updated "scheduledTime" ;;
        _ <- availability_update_many_slot (ap_scheduledTime updated_appointment)
               (ap_professionalId updated_appointment) true ;;
        _ <- notification_create_many
               [ (ap_userId updated_appointment,
                  "Your appointment has been cancelled.");
                 (ap_professionalId updated_appointment,
                  "An appointment has been cancelled.") ] ;;
        ret (mkCancelBookingResponse true
               "The appointment has been successfully cancelled.")
  end.

(** ** updateAppointment_service.py *)

(** The module's own [Appointment] model: two fields. *)
Record AppointmentView := mkAppointmentView {
  apv_scheduledTime : datetime;
  apv_status : AppointmentStatus
}.

(** [UpdateAppointmentResponse]: [updatedAppointment: Appointment] and
    [notification: prisma.models.Notification] are declared without
    [Optional], so an instance always carries both. *)
Record UpdateAppointmentResponse := mkUpdateAppointmentResponse {
  ua_success : bool;
  ua_message : string;
  ua_updatedAppointment : AppointmentView;
  ua_notification : Notification
}.

(** The constructor call [UpdateAppointmentResponse(success=..., message=...,
    updatedAppointment=..., notification=...)] with pydantic's validation of
    the two model-typed fields: [None] is refused for a field that is not
    [Optional]. *)
Definition new_UpdateAppointmentResponse (success : bool) (message : string)
    (updatedAppointment : option Appointment) (notification : option Notification)
    : M UpdateAppointmentResponse :=
  match updatedAppointment, notification with
  | Some a, Some n =>
      if coerces_model_instance env
      then ret (mkUpdateAppointmentResponse success message
                  (mkAppointmentView (ap_scheduledTime a) (ap_status a)) n)
      else raise (ValidationError
                    "1 validation error for UpdateAppointmentResponse")
  | Some _, None | None, Some _ =>
      raise (ValidationError "1 validation error for UpdateAppointmentResponse")
  | None, None =>
      raise (ValidationError "2 validation errors for UpdateAppointmentResponse")
  end.

Definition updateAppointment (appointmentId : Z) (newScheduledTime : option datetime)
    (status : AppointmentStatus) : M UpdateAppointmentResponse :=
  guarded <- attempt
    (appointment <- appointment_find_unique appointmentId ;;
     match appointment with
     | None => new_UpdateAppointmentResponse false "Appointment not found." None None
     | Some _ =>
         updated <- appointment_update appointmentId status newScheduledTime ;;
         updated_appointment <- deref updated "userId" ;;
         notification <- notification_create (ap_userId updated_appointment)
           ("Appointment status updated to " ++ str_status env status ++ ".")%string ;;
         new_UpdateAppointmentResponse true "Appointment updated successfully."
           (Some updated_appointment) (Some notification)
     end) ;;
  match guarded with
  | inr response => ret response
  | inl e =>
      new_UpdateAppointmentResponse false
        ("Error updating appointment: " ++ exn_text e)%string None None
  end.

(** ** updateAvailability_service.py *)

Record AvailabilityUpdateResponse := mkAvailabilityUpdateResponse {
  au_professionalId : Z;
  au_updatedStatus : bool;
  au_message : string
}.

(** The f-string of the notification text. *)
Definition availability_message (t : datetime) (flag : bool) : string :=
  ("Your availability for " ++ strftime_minute env t ++ " has been set to "
   ++ (if flag then "available" else "not available") ++ ".")%string.

Definition updateAvailability (professionalId : Z) (dt : datetime) (isAvailable : bool)
    : M AvailabilityUpdateResponse :=
  availability <- availability_find_first professionalId dt None ;;
  _ <- match availability with
       | Some availability =>
           _ <- availability_update_many_id (av_id availability) isAvailable ;; ret tt
       | None =>
           _ <- availability_create professionalId dt isAvailable ;; ret tt
       end ;;
  _ <- notification_create professionalId (availability_message dt isAvailable) ;;
  ret (mkAvailabilityUpdateResponse professionalId isAvailable
         "Availability successfully updated and notification sent.").

(** ** checkAvailability_service.py and getAvailableTimeSlots_service.py *)

Record ProfessionalAvailability := mkProfessionalAvailability {
  pa_professionalId : Z;
  pa_name : string;
  pa_availability : bool;
  pa_nextAvailableTime : option datetime
}.

Record AvailabilityResponse := mkAvailabilityResponse {
  availability_entries : list ProfessionalAvailability   (* field [availabilities] *)
}.

(** The relation [Availability.professional] (by [professionalId]) and the
    relation [ProfessionalProfile.profile]. *)
Definition professional_of (db : DB) (a : Availability) : option ProfessionalProfile :=
  find (fun p => pp_id p =? av_professionalId a) (professionals db).

Definition profile_of (db : DB) (p : ProfessionalProfile) : option UserProfile :=
  find (fun u => up_id u =? pp_profileId p) (userProfiles db).

(** A row as [include={"professional": {"include": {"profile": True}}}]
    delivers it. *)
Definition AvailabilityIncl : Type :=
  Availability * option (ProfessionalProfile * option UserProfile).

Definition with_professional (db : DB) (a : Availability) : AvailabilityIncl :=
  (a, option_map (fun p => (p, profile_of db p)) (professional_of db a)).

(** The text of the engine's rejection of a relation filter it does not
    know for the relation. *)
Definition relation_filter_error : string :=
  "Unknown argument `some` in where.professional for type ProfessionalProfileRelationFilter".

(** The rows an answered query of [checkAvailability] delivers.  Given a
    [date], the entry ["datetime"] = [{"gte": day_start, "lt": day_end}]
    selects by time.  Given a [professionalId], the source adds the entry
    ["professional": {"some": {"id": professionalId}}]: [some] filters a list
    relation, and [professional] is the to-one side (the loop reads
    [availability.professional.profile] as one record, and the rows carry
    the scalar [professionalId]); the engine rejects the query, so no row is
    delivered under it. *)
Definition check_where (db : DB) (professionalId : option Z) (day : option date)
    (a : Availability) : bool :=
  match professionalId with
  | None => true
  | Some _ => false
  end &&
  match day with
  | None => true
  | Some d => (combine_min d <=? av_datetime a) && (av_datetime a <? combine_max d)
  end.

(** [Availability.prisma().find_many(where=availability_query, include=...)]:
    rejected when the query carries the [some] filter, otherwise a client
    call like the others. *)
Definition availability_find_many (professionalId : option Z) (day : option date)
    : M (list AvailabilityIncl) :=
  match professionalId with
  | Some _ => raise (PrismaError relation_filter_error)
  | None =>
      gateway (Availability_find_many None day)
        (fun db =>
           (map (with_professional db)
                (filter (check_where db None day) (availabilities db)), db))
  end.

Definition full_name (u : UserProfile) : string :=
  (up_firstName u ++ " " ++ up_lastName u)%string.

Definition next_time (a : Availability) : option datetime :=
  if av_isAvailable a then Some (av_datetime a) else None.

(** The body of the [for] loop of [checkAvailability]. *)
Definition check_entry (row : AvailabilityIncl) : M ProfessionalAvailability :=
  related <- deref (snd row) "profile" ;;
  professional <- deref (snd related) "id" ;;
  ret (mkProfessionalAvailability (up_id professional) (full_name professional)
         (av_isAvailable (fst row)) (next_time (fst row))).

(** [for x in rows: acc.append(body(x))] *)
Fixpoint for_append {A B} (body : A -> M B) (rows : list A) (acc : list B)
    : M (list B) :=
  match rows with
  | [] => ret acc
  | x :: rest => y <- body x ;; for_append body rest (acc ++ [y])
  end.

Definition checkAvailability (professionalId : option Z) (day : option date)
    : M AvailabilityResponse :=
  availabilities <- availability_find_many professionalId day ;;
  availability_profiles <- for_append check_entry availabilities [] ;;
  ret (mkAvailabilityResponse availability_profiles).

(** [ProfessionalProfile.prisma().find_unique(where={"id": id}, include={
    "profile": True, "availabilities": {"where": {"datetime": {"gte": from,
    "lte": to}, "professionalId": id}}})] *)
Definition slots_where (id : Z) (from to : datetime) (a : Availability) : bool :=
  (from <=? av_datetime a) && (av_datetime a <=? to) && (av_professionalId a =? id).

Definition professional_find_unique (id : Z) (from to : datetime)
    : M (option (ProfessionalProfile * option UserProfile * list Availability)) :=
  gateway (ProfessionalProfile_find_unique id from to)
    (fun db =>
       (option_map
          (fun p =>
             (p, profile_of db p,
              filter (fun a => (av_professionalId a =? pp_id p) && slots_where id from to a)
                     (availabilities db)))
          (find (fun p => pp_id p =? id) (professionals db)), db)).

Definition slot_entry (professionalId : Z) (profile : option UserProfile)
    (a : Availability) : M ProfessionalAvailability :=
  u <- deref profile "firstName" ;;
  ret (mkProfessionalAvailability professionalId (full_name u)
         (av_isAvailable a) (next_time a)).

Definition getAvailableTimeSlots (professionalId : Z) (start_date end_date : datetime)
    : M AvailabilityResponse :=
  professional <- professional_find_unique professionalId start_date end_date ;;
  match professional with
  | None => ret (mkAvailabilityResponse [])
  | Some (_, profile, slots) =>
      availability_list <- for_append (slot_entry professionalId profile) slots [] ;;
      ret (mkAvailabilityResponse availability_list)
  end.

End Services.

(** ** Further services over the same store *)

(** The client calls of the services below. *)
Inductive ExtraCall :=
| Availability_history (professionalId : Z)
| Notification_find_unique (id : Z)
| Notification_update (id : Z) (message : string) (isRead : bool)
| Notification_delete (id : Z)
| ProfessionalProfile_find (id : Z)
| Availability_delete_many (professionalId : Z)
| Appointment_delete_many (professionalId : Z)
| Review_delete_many (professionalId : Z)
| ProfessionalProfile_delete (id : Z).

Definition set_notifications (db : DB) (l : list Notification) : DB :=
  mkDB (availabilities db) (appointments db) l (professionals db)
       (userProfiles db) (next_availability_id db) (next_appointment_id db)
       (next_notification_id db).

Definition set_professionals (db : DB) (l : list ProfessionalProfile) : DB :=
  mkDB (availabilities db) (appointments db) (notifications db) l
       (userProfiles db) (next_availability_id db) (next_appointment_id db)
       (next_notification_id db).

(** [f"{n}"] for an [int]: its decimal digits, with a minus sign when
    negative. *)
Definition str_int (n : Z) : string := NilZero.string_of_int (Z.to_int n).

Section MoreServices.

Variable env : Platform.

(** The engine's refusals of the calls above. *)
Variable refuses : ExtraCall -> DB -> option string.

Definition gateway_extra {A} (c : ExtraCall) (run : DB -> A * DB) : M A :=
  fun db =>
    match refuses c db with
    | Some text => (Raised (PrismaError text), db)
    | None => let (a, db') := run db in (Returned a, db')
    end.

(** *** createNotification_service.py *)

Record CreateNotificationResponse := mkCreateNotificationResponse {
  cr_success : bool;
  cr_message : string
}.

Definition createNotification (recipient_id : Z) (notification_type content : string)
    : M CreateNotificationResponse :=
  guarded <- attempt
    (_ <- notification_create env recipient_id
            ("[" ++ notification_type ++ "] " ++ content)%string ;;
     ret (mkCreateNotificationResponse true "Notification queued successfully.")) ;;
  match guarded with
  | inr response => ret response
  | inl e => ret (mkCreateNotificationResponse false (exn_text e))
  end.

(** *** deleteNotification_service.py *)

Definition notif_has_id (id : Z) (n : Notification) : bool := nt_id n =? id.

(** [Notification.prisma().delete(where={"id": id})]: the deleted row, or
    [None] when no row has that id. *)
Definition notification_delete (id : Z) : M (option Notification) :=
  gateway_extra (Notification_delete id)
    (fun db =>
       (find (notif_has_id id) (notifications db),
        set_notifications db
          (filter (fun n => negb (notif_has_id id n)) (notifications db)))).

Record DeleteNotificationResponse := mkDeleteNotificationResponse {
  dn_message : string;
  dn_deletedId : Z
}.

Definition deleteNotification (notificationId : Z) : M DeleteNotificationResponse :=
  deleted <- notification_delete notificationId ;;
  notification <- deref deleted "id" ;;
  ret (mkDeleteNotificationResponse "Notification deleted successfully."
         (nt_id notification)).

(** *** updateNotification_service.py *)

Definition notification_find_unique (id : Z) : M (option Notification) :=
  gateway_extra (Notification_find_unique id)
    (fun db => (find (notif_has_id id) (notifications db), db)).

Definition rewrite_notification (message : string) (isRead : bool)
    (n : Notification) : Notification :=
  mkNotification (nt_id n) (nt_userId n) message (nt_createdAt n) isRead.

(** [Notification.prisma().update(where={"id": id}, data={"message": m,
    "isRead": r})] *)
Definition notification_update (id : Z) (message : string) (isRead : bool)
    : M (option Notification) :=
  gateway_extra (Notification_update id message isRead)
    (fun db =>
       let l := map (fun n => if notif_has_id id n
                              then rewrite_notification message isRead n else n)
                    (notifications db) in
       (find (notif_has_id id) l, set_notifications db l)).

(** A value of the [Dict[str, Any]] the response carries. *)
Inductive FieldValue := StrValue (s : string) | BoolValue (b : bool).

Record UpdateNotificationResponse := mkUpdateNotificationResponse {
  un_success : bool;
  un_notificationId : Z;
  un_updatedFields : list (string * FieldValue)   (* a dict, in insertion order *)
}.

Definition updateNotification (notificationId : Z) (message : string) (isRead : bool)
    : M UpdateNotificationResponse :=
  found <- notification_find_unique notificationId ;;
  match found with
  | None => ret (mkUpdateNotificationResponse false notificationId [])
  | Some notification =>
      _ <- notification_update notificationId message isRead ;;
      let fields_updated := [] in
      let fields_updated :=
        if negb (String.eqb message (nt_message notification))
        then fields_updated ++ [("message", StrValue message)]
        else fields_updated in
      let fields_updated :=
        if negb (Bool.eqb isRead (nt_isRead notification))
        then fields_updated ++ [("isRead", BoolValue isRead)]
        else fields_updated in
      ret (mkUpdateNotificationResponse true notificationId fields_updated)
  end.

(** *** fetchAvailabilityHistory_service.py *)

(** [order={"datetime": "asc"}]: rows by ascending datetime; rows with equal
    datetime stay in table order. *)
Fixpoint insert_by_datetime (a : Availability) (l : list Availability)
    : list Availability :=
  match l with
  | [] => [a]
  | b :: rest =>
      if av_datetime a <=? av_datetime b then a :: b :: rest
      else b :: insert_by_datetime a rest
  end.

Fixpoint order_by_datetime (l : list Availability) : list Availability :=
  match l with
  | [] => []
  | a :: rest => insert_by_datetime a (order_by_datetime rest)
  end.

Definition of_professional (professionalId : Z) (a : Availability) : bool :=
  av_professionalId a =? professionalId.

(** [Availability.prisma().find_many(where={"professionalId": p},
    order={"datetime": "asc"})] *)
Definition availability_history (professionalId : Z) : M (list Availability) :=
  gateway_extra (Availability_history professionalId)
    (fun db =>
       (order_by_datetime
          (filter (of_professional professionalId) (availabilities db)), db)).

Record AvailabilityRecord := mkAvailabilityRecord {
  rec_datetime : datetime;
  rec_isAvailable : bool
}.

Record AvailabilityHistoryResponse := mkAvailabilityHistoryResponse {
  history : list AvailabilityRecord
}.

Definition record_of (a : Availability) : AvailabilityRecord :=
  mkAvailabilityRecord (av_datetime a) (av_isAvailable a).

Definition fetchAvailabilityHistory (professionalId : Z)
    : M AvailabilityHistoryResponse :=
  history_records <- availability_history professionalId ;;
  ret (mkAvailabilityHistoryResponse (map record_of history_records)).

(** *** deleteProfessionalProfile_service.py *)

Definition prof_has_id (id : Z) (p : ProfessionalProfile) : bool := pp_id p =? id.

Definition professional_find (id : Z) : M (option ProfessionalProfile) :=
  gateway_extra (ProfessionalProfile_find id)
    (fun db => (find (prof_has_id id) (professionals db), db)).

(** [delete_many(where={"professionalId": id})]: the number of rows deleted. *)
Definition availability_delete_many (professionalId : Z) : M Z :=
  gateway_extra (Availability_delete_many professionalId)
    (fun db =>
       (Z.of_nat (List.length (filter (of_professional professionalId)
                                      (availabilities db))),
        set_availabilities db
          (filter (fun a => negb (of_professional professionalId a))
                  (availabilities db)))).

Definition appt_of_professional (professionalId : Z) (a : Appointment) : bool :=
  ap_professionalId a =? professionalId.

Definition appointment_delete_many (professionalId : Z) : M Z :=
  gateway_extra (Appointment_delete_many professionalId)
    (fun db =>
       (Z.of_nat (List.length (filter (appt_of_professional professionalId)
                                      (appointments db))),
        set_appointments db
          (filter (fun a => negb (appt_of_professional professionalId a))
                  (appointments db)))).

(** [Review.prisma().delete_many(...)]: the Review table is not part of the
    modelled store; the call can be refused and writes none of the tables
    that are. *)
Definition review_delete_many (professionalId : Z) : M unit :=
  gateway_extra (Review_delete_many professionalId) (fun db => (tt, db)).

Definition professional_delete (id : Z) : M (option ProfessionalProfile) :=
  gateway_extra (ProfessionalProfile_delete id)
    (fun db =>
       (find (prof_has_id id) (professionals db),
        set_professionals db
          (filter (fun p => negb (prof_has_id id p)) (professionals db)))).

Record DeleteProfessionalResponse := mkDeleteProfessionalResponse {
  dp_confirmation : string;
  dp_error : option string
}.

Definition deleteProfessionalProfile (id : Z) : M DeleteProfessionalResponse :=
  guarded <- attempt
    (profile <- professional_find id ;;
     match profile with
     | None =>
         ret (mkDeleteProfessionalResponse ""
                (Some "Professional profile not found."))
     | Some profile =>
         _ <- availability_delete_many id ;;
         _ <- appointment_delete_many id ;;
         _ <- review_delete_many id ;;
         _ <- professional_delete id ;;
         _ <- notification_create env (pp_profileId profile)
                ("Professional Profile with ID " ++ str_int id
                 ++ " has been deleted.")%string ;;
         ret (mkDeleteProfessionalResponse
                "Professional profile successfully deleted." None)
     end) ;;
  match guarded with
  | inr response => ret response
  | inl e =>
      ret (mkDeleteProfessionalResponse ""
             (Some ("Failed to delete professional profile: " ++ exn_text e)%string))
  end.

End MoreServices.

(** ** Vocabulary of the statements *)

(** An environment whose engine never refuses a call. *)
Definition reliable (env : Platform) : Prop :=
  forall c db, fault env c db = None.

Definition no_fault : Call -> DB -> option string := fun _ _ => None.

(** A platform for the examples: reliable engine, [PENDING] as the schema's
    default status, pydantic copying model instances. *)
Definition demo_env : Platform :=
  mkPlatform no_fault PENDING 0 (fun _ => "T") (fun _ => "T")
    (fun s => match s with
              | PENDING => "PENDING" | CONFIRMED => "CONFIRMED"
              | CANCELLED => "CANCELLED" | COMPLETED => "COMPLETED"
              end)
    true.

(** An engine that refuses every insert into Appointment. *)
Definition refuse_appointments : Call -> DB -> option string :=
  fun c _ =>
    match c with
    | Appointment_create _ _ _ => Some "Foreign key constraint failed"
    | _ => None
    end.

Definition strict_env : Platform :=
  mkPlatform refuse_appointments PENDING 0 (fun _ => "T") (fun _ => "T")
    (fun _ => "S") true.

(** Stores for the examples. *)
Definition db_one_free_slot : DB :=
  mkDB [mkAvailability 1 2 1000 true] [] [] [] [] 2 1 1.

Definition db_one_taken_slot : DB :=
  mkDB [mkAvailability 1 2 1000 false] [] [] [] [] 2 1 1.

Definition db_booked : DB :=
  mkDB [mkAvailability 1 2 1000 false; mkAvailability 2 2 2000 false]
       [mkAppointment 101 1 2 1000 CONFIRMED] [] [] [] 3 102 1.

Definition db_late_slot : DB :=
  mkDB [mkAvailability 1 2 86399999500 true] [] []
       [mkProfessionalProfile 2 7] [mkUserProfile 7 "Ann" "Lee"] 2 1 1.

(** Day 0 with rows at 00:00:00.000, 23:59:59.999 and, on day 1, 00:00:00.000;
    every datetime a whole millisecond. *)
Definition db_day_zero : DB :=
  mkDB [mkAvailability 1 2 0 true; mkAvailability 2 2 86399999000 false;
        mkAvailability 3 2 86400000000 true]
       [] [] [mkProfessionalProfile 2 7] [mkUserProfile 7 "Ann" "Lee"] 4 1 1.

(** The two rows [cancelAppointment] hands to [create_many]. *)
Definition cancel_notifications (db : DB) (a : Appointment) (now : datetime)
    : list Notification :=
  [ mkNotification (next_notification_id db) (ap_userId a)
      "Your appointment has been cancelled." now false;
    mkNotification (next_notification_id db + 1) (ap_professionalId a)
      "An appointment has been cancelled." now false ].

(** A computation that leaves the Availability table (and the other tables
    [updateAppointment] has no business with) as it found it, whether it
    returns or raises. *)
Definition keeps_availability {A} (m : M A) : Prop :=
  forall db,
    availabilities (snd (m db)) = availabilities db /\
    next_availability_id (snd (m db)) = next_availability_id db /\
    professionals (snd (m db)) = professionals db /\
    userProfiles (snd (m db)) = userProfiles db.

(** A computation that does not look at the Availability table: run on a
    store with another Availability table it has the same outcome and writes
    the same things. *)
Definition ignores_availability {A} (m : M A) : Prop :=
  forall db avs,
    m (set_availabilities db avs)
    = (fst (m db), set_availabilities (snd (m db)) avs).

(** The rows a professional id and a date stand for, read off the row
    alone; without a professional id they are the rows the code's [where]
    selects. *)
Definition in_day (d : date) (t : datetime) : bool :=
  (combine_min d <=? t) && (t <? combine_max d).

Definition selected (professionalId : option Z) (day : option date)
    (a : Availability) : bool :=
  match professionalId with
  | None => true
  | Some pid => av_professionalId a =? pid
  end &&
  match day with
  | None => true
  | Some d => in_day d (av_datetime a)
  end.

(** The date filter in the spec's words: the inclusive day boundary
    [00:00:00, 23:59:59.999] of the calendar date. *)
Definition spec_day_end (d : date) : datetime := d * usec_per_day + 86399999000.

Definition spec_in_day (d : date) (t : datetime) : bool :=
  (combine_min d <=? t) && (t <=? spec_day_end d).

Definition spec_selected (professionalId : option Z) (day : option date)
    (a : Availability) : bool :=
  match professionalId with
  | None => true
  | Some pid => av_professionalId a =? pid
  end &&
  match day with
  | None => true
  | Some d => spec_in_day d (av_datetime a)
  end.

(** The response entry built for a row: availability and time from the row,
    id and name from the profile of the row's professional. *)
Definition entry_for (db : DB) (a : Availability) (e : ProfessionalAvailability) : Prop :=
  exists p u,
    professional_of db a = Some p /\ profile_of db p = Some u /\
    e = mkProfessionalAvailability (up_id u) (full_name u) (av_isAvailable a)
          (next_time a).

(** The outcome lists exactly the given rows: it is a returned list with one
    entry per row, in order. *)
Definition lists_exactly (db : DB) (rows : list Availability)
    (o : Outcome AvailabilityResponse) : Prop :=
  exists entries,
    o = Returned (mkAvailabilityResponse entries) /\
    Forall2 (entry_for db) rows entries.

(** A table whose keys are pairwise distinct and below the counter that
    numbers the next row. *)
Definition keyed {A} (id : A -> Z) (l : list A) (next : Z) : Prop :=
  (forall a, In a l -> id a < next) /\ NoDup (map id l).

(** The store as the auto-increment keys leave it. *)
Definition well_formed (db : DB) : Prop :=
  keyed av_id (availabilities db) (next_availability_id db) /\
  keyed ap_id (appointments db) (next_appointment_id db) /\
  keyed nt_id (notifications db) (next_notification_id db).

Definition slot_key (a : Availability) : Z * datetime :=
  (av_professionalId a, av_datetime a).

(** At most one Availability row per (professionalId, datetime). *)
Definition one_row_per_slot (db : DB) : Prop :=
  NoDup (map slot_key (availabilities db)).

(** A computation that keeps a property of the store, whether it returns or
    raises. *)
Definition preserves {A} (P : DB -> Prop) (m : M A) : Prop :=
  forall db, P db -> P (snd (m db)).

(** A computation that writes nothing. *)
Definition read_only {A} (m : M A) : Prop :=
  forall db, snd (m db) = db.

(** A store of two professionals with slots, an appointment and
    notifications, keys in order. *)
Definition db_clinic : DB :=
  mkDB [mkAvailability 1 2 3000 true; mkAvailability 2 2 1000 false;
        mkAvailability 3 5 2000 true; mkAvailability 4 2 2000 true]
       [mkAppointment 101 1 2 1000 CONFIRMED; mkAppointment 102 1 5 4000 CANCELLED]
       [mkNotification 1 1 "hello" 0 false; mkNotification 2 2 "world" 0 true]
       [mkProfessionalProfile 2 7; mkProfessionalProfile 5 8]
       [mkUserProfile 7 "Ann" "Lee"] 5 103 3.

(** Two calls of [updateAvailability] for the same pair, interleaved at
    their awaits: both lookups are answered before either call writes its
    row (the Notifications that follow are left out). *)
Definition updateAvailability_interleaved (env : Platform) (professionalId : Z)
    (t : datetime) (flag1 flag2 : bool) : M unit :=
  first <- availability_find_first env professionalId t None ;;
  second <- availability_find_first env professionalId t None ;;
  _ <- match first with
       | Some a => _ <- availability_update_many_id env (av_id a) flag1 ;; ret tt
       | None => _ <- availability_create env professionalId t flag1 ;; ret tt
       end ;;
  _ <- match second with
       | Some a => _ <- availability_update_many_id env (av_id a) flag2 ;; ret tt
       | None => _ <- availability_create env professionalId t flag2 ;; ret tt
       end ;;
  ret tt.

(** An engine that refuses none of the further calls. *)
Definition no_refusal : ExtraCall -> DB -> option string := fun _ _ => None.

(** An engine that refuses every write of an Availability flag by id, and one
    that refuses every batch insert of Notifications. *)
Definition refuse_flag_writes : Call -> DB -> option string :=
  fun c _ =>
    match c with
    | Availability_update _ _ => Some "Connection lost"
    | _ => None
    end.

Definition refuse_batches : Call -> DB -> option string :=
  fun c _ =>
    match c with
    | Notification_create_many _ => Some "Connection lost"
    | _ => None
    end.

Definition flaky_env (f : Call -> DB -> option string) : Platform :=
  mkPlatform f PENDING 0 (fun _ => "T") (fun _ => "T") (fun _ => "S") true.

(** The outcome of a loop whose body neither reads nor writes the store:
    the first exception, or the list grown by one entry per row. *)
Fixpoint collect {A B} (body : A -> Outcome B) (rows : list A) (acc : list B)
    : Outcome (list B) :=
  match rows with
  | [] => Returned acc
  | x :: rest =>
      match body x with
      | Returned y => collect body rest (acc ++ [y])
      | Raised e => Raised e
      end
  end.

(** The entry [getAvailableTimeSlots] builds for a row. *)
Definition slot_view (professionalId : Z) (u : UserProfile) (a : Availability)
    : ProfessionalAvailability :=
  mkProfessionalAvailability professionalId (full_name u) (av_isAvailable a)
    (next_time a).

(** The rows of a professional between two instants, ends included. *)
Definition in_range (professionalId : Z) (from to : datetime) (a : Availability)
    : bool :=
  (av_professionalId a =? professionalId) &&
  (from <=? av_datetime a) && (av_datetime a <=? to).

(** The body of the loop of [checkAvailability], without the store. *)
Definition check_entry_outcome (row : AvailabilityIncl)
    : Outcome ProfessionalAvailability :=
  match snd row with
  | None => Raised (AttributeError "'NoneType' object has no attribute 'profile'")
  | Some (_, None) => Raised (AttributeError "'NoneType' object has no attribute 'id'")
  | Some (_, Some u) =>
      Returned (mkProfessionalAvailability (up_id u) (full_name u)
                  (av_isAvailable (fst row)) (next_time (fst row)))
  end.

(** A store where professional 5 has slots and no profile row. *)
Definition db_no_profile : DB :=
  mkDB [mkAvailability 1 5 2000 true] [] [] [mkProfessionalProfile 5 8] [] 2 1 1.

(** ** Proof tools *)

Ltac unfold_calls :=
  unfold availability_find_first, availability_update, availability_update_many_id,
    availability_update_many_slot, availability_create, appointment_find_unique,
    appointment_create, appointment_update, notification_create,
    notification_create_many, availability_find_many, professional_find_unique,
    gateway in *.

Ltac unfold_monad := unfold bind, attempt, ret, raise, deref in *.

(** ** Generic facts *)

Lemma demo_env_reliable : reliable demo_env.
Proof. intros c db. reflexivity. Qed.

Lemma slot_matches_spec p t flag a :
  slot_matches p t flag a = true <->
  av_professionalId a = p /\ av_datetime a = t /\
  match flag with Some b => av_isAvailable a = b | None => True end.
Proof.
  unfold slot_matches. rewrite !andb_true_iff, !Z.eqb_eq.
  destruct flag as [b|].
  - rewrite Bool.eqb_true_iff. tauto.
  - intuition.
Qed.

Lemma find_none_iff {A} (f : A -> bool) (l : list A) :
  find f l = None <-> forall x, In x l -> f x = false.
Proof.
  split.
  - apply find_none.
  - induction l as [|x l IH]; intros H; simpl; [reflexivity|].
    rewrite (H x (or_introl eq_refl)). apply IH. intros y Hy. apply H. now right.
Qed.

Lemma find_some_iff_ex {A} (f : A -> bool) (l : list A) :
  (exists x, find f l = Some x) <-> (exists x, In x l /\ f x = true).
Proof.
  split.
  - intros [x Hx]. exists x. now apply find_some in Hx.
  - intros [x [Hin Hf]]. destruct (find f l) as [y|] eqn:E.
    + now exists y.
    + rewrite (find_none _ _ E x Hin) in Hf. discriminate.
Qed.

(** ** book: the reservation check *)

(** With the insert accepted, whatever the later steps do, the new
    Appointment row is in the table. *)
Lemma book_past_the_check env db userId professionalId scheduledTime reserved :
  fault env (Availability_find_first professionalId scheduledTime (Some true)) db = None ->
  find (slot_matches professionalId scheduledTime (Some true)) (availabilities db)
  = Some reserved ->
  (forall text,
     fault env (Appointment_create userId professionalId scheduledTime) db = Some text ->
     bookAppointment env userId professionalId scheduledTime db
     = (Returned (mkBookingResponse false text None), db)) /\
  (fault env (Appointment_create userId professionalId scheduledTime) db = None ->
   appointments (snd (bookAppointment env userId professionalId scheduledTime db))
   = appointments db ++
       [mkAppointment (next_appointment_id db) userId professionalId scheduledTime
          (default_status env)]).
Proof.
  intros Hf Hres. unfold bookAppointment. unfold_calls. unfold_monad.
  rewrite Hf, Hres. cbn. split.
  - intros text Hc. rewrite Hc. reflexivity.
  - intros Hc. rewrite Hc. cbn.
    destruct (fault env (Availability_update _ _) _); [reflexivity|]. cbn.
    destruct (fault env (Notification_create _ _) _); reflexivity.
Qed.

(** C1: with the lookup answered, the reservation check of
    [bookAppointment] (the [find_first] on professionalId, datetime,
    isAvailable=True) finds a row exactly when the table holds a row with
    that professionalId and datetime and isAvailable=true.  When there is
    none, [bookAppointment] returns (does not raise) the result
    success=false, message "No available slots at the requested time.", and
    the state is the one it started from.  When there is one,
    [bookAppointment] passes the check and goes on to the insert of the
    Appointment: refused, the call returns that error's text; accepted, the
    new Appointment row is in the table whatever the later steps do.  So,
    the insert not being refused, the call answers "No available slots at the
    requested time." on an unchanged state exactly when no such row
    exists. *)
Theorem book_reservation_check env db userId professionalId scheduledTime :
  fault env (Availability_find_first professionalId scheduledTime (Some true)) db = None ->
  ((exists slot,
       availability_find_first env professionalId scheduledTime (Some true) db
       = (Returned (Some slot), db))
   <->
   (exists slot, In slot (availabilities db) /\
       av_professionalId slot = professionalId /\
       av_datetime slot = scheduledTime /\ av_isAvailable slot = true))
  /\
  ((forall slot, In slot (availabilities db) ->
       av_professionalId slot = professionalId ->
       av_datetime slot = scheduledTime -> av_isAvailable slot <> true) ->
   bookAppointment env userId professionalId scheduledTime db
   = (Returned (mkBookingResponse false
                  "No available slots at the requested time." None), db))
  /\
  ((exists slot, In slot (availabilities db) /\
       av_professionalId slot = professionalId /\
       av_datetime slot = scheduledTime /\ av_isAvailable slot = true) ->
   (forall text,
      fault env (Appointment_create userId professionalId scheduledTime) db = Some text ->
      bookAppointment env userId professionalId scheduledTime db
      = (Returned (mkBookingResponse false text None), db)) /\
   (fault env (Appointment_create userId professionalId scheduledTime) db = None ->
    appointments (snd (bookAppointment env userId professionalId scheduledTime db))
    = appointments db ++
        [mkAppointment (next_appointment_id db) userId professionalId scheduledTime
           (default_status env)]))
  /\
  (fault env (Appointment_create userId professionalId scheduledTime) db = None ->
   (bookAppointment env userId professionalId scheduledTime db
    = (Returned (mkBookingResponse false
                   "No available slots at the requested time." None), db)
    <->
    forall slot, In slot (availabilities db) ->
      av_professionalId slot = professionalId ->
      av_datetime slot = scheduledTime -> av_isAvailable slot <> true)).
Proof.
  intros Hf.
  assert (Hnone :
    (forall slot, In slot (availabilities db) ->
       av_professionalId slot = professionalId ->
       av_datetime slot = scheduledTime -> av_isAvailable slot <> true) ->
    bookAppointment env userId professionalId scheduledTime db
    = (Returned (mkBookingResponse false
                   "No available slots at the requested time." None), db)).
  { intros Hnone.
    assert (E : find (slot_matches professionalId scheduledTime (Some true))
                  (availabilities db) = None).
    { apply find_none_iff. intros x Hx.
      destruct (slot_matches professionalId scheduledTime (Some true) x) eqn:Em;
        [|reflexivity].
      apply slot_matches_spec in Em. destruct Em as (Hp & Ht & Ha).
      exfalso. exact (Hnone x Hx Hp Ht Ha). }
    unfold bookAppointment, bind, availability_find_first, gateway.
    rewrite Hf, E. reflexivity. }
  assert (Hsome :
    (exists slot, In slot (availabilities db) /\
       av_professionalId slot = professionalId /\
       av_datetime slot = scheduledTime /\ av_isAvailable slot = true) ->
    exists reserved,
      find (slot_matches professionalId scheduledTime (Some true))
           (availabilities db) = Some reserved).
  { intros [slot (Hin & Hp & Ht & Ha)].
    apply (proj2 (find_some_iff_ex _ _)).
    exists slot. split; [assumption|]. apply slot_matches_spec. tauto. }
  split; [|split; [exact Hnone|split]].
  - unfold availability_find_first, gateway. rewrite Hf.
    split.
    + intros [slot H]. injection H as H.
      apply find_some in H. destruct H as [Hin Hm].
      apply slot_matches_spec in Hm. exists slot. tauto.
    + intros Hex. destruct (Hsome Hex) as [s Hs].
      exists s. now rewrite Hs.
  - intros Hex. destruct (Hsome Hex) as [reserved Hres].
    exact (book_past_the_check env db userId professionalId scheduledTime
             reserved Hf Hres).
  - intros Hc. split; [|exact Hnone].
    intros Hrun slot Hin Hp Ht Ha.
    destruct (Hsome (ex_intro _ slot (conj Hin (conj Hp (conj Ht Ha)))))
      as [reserved Hres].
    destruct (book_past_the_check env db userId professionalId scheduledTime
                reserved Hf Hres) as [_ Happ].
    specialize (Happ Hc). rewrite Hrun in Happ. cbn in Happ.
    apply (f_equal (@List.length Appointment)) in Happ.
    rewrite length_app in Happ. cbn in Happ. lia.
Qed.

Lemma book_reservation_check_witness :
  bookAppointment demo_env 1 2 1000 db_one_taken_slot
  = (Returned (mkBookingResponse false
                 "No available slots at the requested time." None),
     db_one_taken_slot)
  /\
  appointments (snd (bookAppointment demo_env 1 2 1000 db_one_free_slot))
  = [mkAppointment 1 1 2 1000 PENDING].
Proof.
  destruct (book_reservation_check demo_env db_one_taken_slot 1 2 1000 eq_refl)
    as (_ & Htaken & _).
  destruct (book_reservation_check demo_env db_one_free_slot 1 2 1000 eq_refl)
    as (_ & _ & Hfree & _).
  split.
  - apply Htaken. intros slot [<-|[]] _ _. simpl. discriminate.
  - apply Hfree; [|reflexivity].
    exists (mkAvailability 1 2 1000 true). repeat split. now left.
Defined.

(** ** book: the successful path and the failed insert *)

Lemma In_set_flag_where p flag l a :
  In a l -> p a = true -> In (set_flag flag a) (set_flag_where p flag l).
Proof.
  intros Hin Hp. unfold set_flag_where.
  apply in_map_iff. exists a. now rewrite Hp.
Qed.





(** C7: when the engine refuses the insert of the Appointment with an
    error, [bookAppointment] returns success=false with the error's text as
    message, and the whole state is the one before the call: the reserved
    row still has isAvailable=true and no Notification was created. *)
Theorem book_insert_failure env db userId professionalId scheduledTime reserved text :
  fault env (Availability_find_first professionalId scheduledTime (Some true)) db = None ->
  find (slot_matches professionalId scheduledTime (Some true)) (availabilities db)
  = Some reserved ->
  fault env (Appointment_create userId professionalId scheduledTime) db = Some text ->
  bookAppointment env userId professionalId scheduledTime db
  = (Returned (mkBookingResponse false text None), db)
  /\ In reserved (availabilities db) /\ av_isAvailable reserved = true.
Proof.
  intros Hf Hres Hc. split.
  - unfold bookAppointment. unfold_calls. unfold_monad.
    rewrite Hf, Hres. cbn. rewrite Hc. reflexivity.
  - apply find_some in Hres. destruct Hres as [Hin Hm].
    apply slot_matches_spec in Hm. tauto.
Qed.

Lemma book_insert_failure_witness :
  bookAppointment strict_env 1 2 1000 db_one_free_slot
  = (Returned (mkBookingResponse false "Foreign key constraint failed" None),
     db_one_free_slot)
  /\ In (mkAvailability 1 2 1000 true) (availabilities db_one_free_slot)
  /\ av_isAvailable (mkAvailability 1 2 1000 true) = true.
Proof.
  apply (book_insert_failure strict_env db_one_free_slot 1 2 1000
           (mkAvailability 1 2 1000 true) "Foreign key constraint failed");
    reflexivity.
Defined.

(** ** cancel *)

Lemma find_update_appointments id status t l :
  find (appt_has_id id) (update_appointments id status t l)
  = option_map (apply_update status t) (find (appt_has_id id) l).
Proof.
  induction l as [|a l IH]; simpl; [reflexivity|].
  destruct (appt_has_id id a) eqn:E.
  - unfold appt_has_id in *. simpl. now rewrite E.
  - now rewrite E.
Qed.

Lemma set_flag_where_sets p flag l s :
  In s (set_flag_where p flag l) -> p s = true ->
  (forall a, p (set_flag flag a) = p a) ->
  av_isAvailable s = flag.
Proof.
  intros Hin Hp Hinv. unfold set_flag_where in Hin.
  apply in_map_iff in Hin. destruct Hin as [a [Ha _]].
  destruct (p a) eqn:E.
  - now subst s.
  - subst s. congruence.
Qed.

Lemma status_eqb_eq a b : status_eqb a b = true <-> a = b.
Proof. destruct a, b; simpl; split; intros H; congruence. Qed.

(** What a call of [cancelAppointment] that got past its two guards has
    written, whatever the engine decided. *)
Lemma cancel_returned env db id r db' :
  cancelAppointment env id db = (Returned r, db') ->
  cn_success r = true ->
  exists a,
    find (appt_has_id id) (appointments db) = Some a /\
    ap_status a <> CANCELLED /\
    appointments db' = update_appointments id CANCELLED None (appointments db) /\
    availabilities db'
    = set_flag_where (slot_matches (ap_professionalId a) (ap_scheduledTime a) None)
        true (availabilities db) /\
    notifications db' = notifications db ++ cancel_notifications db a (clock env) /\
    r = mkCancelBookingResponse true
          "The appointment has been successfully cancelled.".
Proof.
  intros Hrun Hok.
  unfold cancelAppointment in Hrun. unfold_calls. unfold_monad.
  destruct (fault env (Appointment_find_unique id) db); [discriminate|].
  cbn in Hrun.
  destruct (find (appt_has_id id) (appointments db)) as [a|] eqn:Ea.
  2:{ injection Hrun as <- <-. discriminate. }
  destruct (status_eqb (ap_status a) CANCELLED) eqn:Es.
  { injection Hrun as <- <-. discriminate. }
  destruct (fault env (Appointment_update _ _ _) db); [discriminate|].
  cbn in Hrun. rewrite find_update_appointments, Ea in Hrun. cbn in Hrun.
  destruct (fault env (Availability_update_many_slot _ _ _) _); [discriminate|].
  cbn in Hrun.
  destruct (fault env (Notification_create_many _) _); [discriminate|].
  cbn in Hrun. injection Hrun as <- <-.
  exists a. split; [reflexivity|]. split.
  { intros E. rewrite E in Es. discriminate. }
  do 2 (split; [reflexivity|]). split; [|reflexivity].
  cbn. rewrite <- app_assoc. reflexivity.
Qed.

(** On a reliable engine, cancelling an existing appointment that is not
    cancelled returns the success result. *)
Lemma cancel_progress env db id a :
  reliable env ->
  find (appt_has_id id) (appointments db) = Some a ->
  ap_status a <> CANCELLED ->
  exists db',
    cancelAppointment env id db
    = (Returned (mkCancelBookingResponse true
                   "The appointment has been successfully cancelled."), db').
Proof.
  intros Hrel Ea Hs.
  unfold cancelAppointment. unfold_calls. unfold_monad.
  rewrite Hrel, Ea.
  destruct (status_eqb (ap_status a) CANCELLED) eqn:Es.
  { apply status_eqb_eq in Es. contradiction. }
  rewrite Hrel. cbn. rewrite find_update_appointments, Ea. cbn.
  rewrite Hrel. cbn. rewrite Hrel. cbn. eexists. reflexivity.
Qed.

(** C3: for an appointment whose status is not CANCELLED, a call of
    [cancelAppointment] that reports success has set the appointment's status
    to CANCELLED, has set isAvailable=true on every Availability row whose
    (professionalId, datetime) are the appointment's (professionalId,
    scheduledTime) and on no other row, has appended exactly two
    Notifications (the first to the appointment's userId, the second to its
    professionalId), and returns success=true with message "The appointment
    has been successfully cancelled."; on a reliable engine the call does
    report success. *)
Theorem cancel_success env db id a :
  find (appt_has_id id) (appointments db) = Some a ->
  ap_status a <> CANCELLED ->
  (reliable env ->
   exists db',
     cancelAppointment env id db
     = (Returned (mkCancelBookingResponse true
                    "The appointment has been successfully cancelled."), db'))
  /\
  (forall r db',
     cancelAppointment env id db = (Returned r, db') ->
     cn_success r = true ->
     r = mkCancelBookingResponse true
           "The appointment has been successfully cancelled." /\
     find (appt_has_id id) (appointments db')
     = Some (mkAppointment (ap_id a) (ap_userId a) (ap_professionalId a)
               (ap_scheduledTime a) CANCELLED) /\
     (forall s, In s (availabilities db') ->
        av_professionalId s = ap_professionalId a ->
        av_datetime s = ap_scheduledTime a -> av_isAvailable s = true) /\
     availabilities db'
     = map (fun s =>
              if (av_professionalId s =? ap_professionalId a)
                 && (av_datetime s =? ap_scheduledTime a)
              then set_flag true s else s) (availabilities db) /\
     notifications db'
     = notifications db ++
         [ mkNotification (next_notification_id db) (ap_userId a)
             "Your appointment has been cancelled." (clock env) false;
           mkNotification (next_notification_id db + 1) (ap_professionalId a)
             "An appointment has been cancelled." (clock env) false ]).
Proof.
  intros Ea Hs. split.
  - intros Hrel. exact (cancel_progress env db id a Hrel Ea Hs).
  - intros r db' Hrun Hok.
    destruct (cancel_returned env db id r db' Hrun Hok)
      as [a' (Ea' & _ & Happ & Hav & Hnt & Hr)].
    rewrite Ea in Ea'. injection Ea' as <-.
    split; [exact Hr|]. split.
    { rewrite Happ, find_update_appointments, Ea. reflexivity. }
    split.
    { intros s Hin Hp Ht. rewrite Hav in Hin.
      apply (set_flag_where_sets _ _ _ _ Hin).
      - apply slot_matches_spec. tauto.
      - intros x. reflexivity. }
    split; [|exact Hnt].
    rewrite Hav. unfold set_flag_where. apply map_ext. intros s.
    unfold slot_matches. now rewrite andb_true_r.
Qed.

Lemma cancel_success_witness :
  exists db',
    cancelAppointment demo_env 101 db_booked
    = (Returned (mkCancelBookingResponse true
                   "The appointment has been successfully cancelled."), db').
Proof.
  apply (cancel_success demo_env db_booked 101 (mkAppointment 101 1 2 1000 CONFIRMED)).
  - reflexivity.
  - discriminate.
  - exact demo_env_reliable.
Defined.

(** A second cancel of an appointment a first cancel reported as cancelled:
    the lookup answered, the guard on the status answers. *)
Lemma cancel_again env db id r db1 :
  cancelAppointment env id db = (Returned r, db1) ->
  cn_success r = true ->
  fault env (Appointment_find_unique id) db1 = None ->
  cancelAppointment env id db1
  = (Returned (mkCancelBookingResponse false "Appointment is already cancelled."),
     db1).
Proof.
  intros Hrun Hok Hf.
  destruct (cancel_returned env db id r db1 Hrun Hok)
    as [a (Ea & _ & Happ & _)].
  unfold cancelAppointment. unfold_calls. unfold_monad.
  rewrite Hf, Happ, find_update_appointments, Ea. reflexivity.
Qed.

(** C4: on a reliable engine, for an existing appointment that is not
    cancelled, two successive calls of [cancelAppointment] with its id return
    first success=true and then success=false with message "Appointment is
    already cancelled." (the second call writes nothing); and for an id with
    no Appointment row, [cancelAppointment] returns success=false with
    message "Appointment not found." and leaves the state as it was. *)
Theorem cancel_not_idempotent env db id :
  (forall a,
     reliable env ->
     find (appt_has_id id) (appointments db) = Some a ->
     ap_status a <> CANCELLED ->
     exists db1,
       cancelAppointment env id db
       = (Returned (mkCancelBookingResponse true
                      "The appointment has been successfully cancelled."), db1) /\
       cancelAppointment env id db1
       = (Returned (mkCancelBookingResponse false
                      "Appointment is already cancelled."), db1))
  /\
  (fault env (Appointment_find_unique id) db = None ->
   (forall a, In a (appointments db) -> ap_id a <> id) ->
   cancelAppointment env id db
   = (Returned (mkCancelBookingResponse false "Appointment not found."), db)).
Proof.
  split.
  - intros a Hrel Ea Hs.
    destruct (cancel_progress env db id a Hrel Ea Hs) as [db1 H1].
    exists db1. split; [exact H1|].
    apply (cancel_again env db id _ db1 H1); [reflexivity|apply Hrel].
  - intros Hf Hnone.
    assert (E : find (appt_has_id id) (appointments db) = None).
    { apply find_none_iff. intros x Hx. unfold appt_has_id.
      apply Z.eqb_neq. now apply Hnone. }
    unfold cancelAppointment. unfold_calls. unfold_monad.
    rewrite Hf, E. reflexivity.
Qed.

Lemma cancel_not_idempotent_witness :
  (exists db1,
     cancelAppointment demo_env 101 db_booked
     = (Returned (mkCancelBookingResponse true
                    "The appointment has been successfully cancelled."), db1) /\
     cancelAppointment demo_env 101 db1
     = (Returned (mkCancelBookingResponse false
                    "Appointment is already cancelled."), db1))
  /\
  cancelAppointment demo_env 999 db_booked
  = (Returned (mkCancelBookingResponse false "Appointment not found."), db_booked).
Proof.
  destruct (cancel_not_idempotent demo_env db_booked 101) as [H1 _].
  destruct (cancel_not_idempotent demo_env db_booked 999) as [_ H2].
  split.
  - apply (H1 (mkAppointment 101 1 2 1000 CONFIRMED)).
    + exact demo_env_reliable.
    + reflexivity.
    + discriminate.
  - apply H2.
    + reflexivity.
    + intros a [<-|[]]. simpl. lia.
Defined.

(** ** updateAppointment: the failure paths raise *)

(** An id that is not in the table: the not-found response cannot be built
    (both model fields are [None]), the handler catches the validation error
    and fails to build its own response the same way. *)
Lemma updateAppointment_missing_id env db id t status :
  fault env (Appointment_find_unique id) db = None ->
  find (appt_has_id id) (appointments db) = None ->
  updateAppointment env id t status db
  = (Raised (ValidationError "2 validation errors for UpdateAppointmentResponse"),
     db).
Proof.
  intros Hf E. unfold updateAppointment, new_UpdateAppointmentResponse.
  unfold_calls. unfold_monad. rewrite Hf, E. reflexivity.
Qed.

(** A refused lookup: the handler raises as well. *)
Lemma updateAppointment_refused_lookup env db id t status text :
  fault env (Appointment_find_unique id) db = Some text ->
  updateAppointment env id t status db
  = (Raised (ValidationError "2 validation errors for UpdateAppointmentResponse"),
     db).
Proof.
  intros Hf. unfold updateAppointment, new_UpdateAppointmentResponse.
  unfold_calls. unfold_monad. rewrite Hf. reflexivity.
Qed.

(** No call of [updateAppointment] returns a result with success=false:
    every failure path ends in the handler, and the handler raises. *)
Lemma updateAppointment_returns_only_success env db id t status r db' :
  updateAppointment env id t status db = (Returned r, db') ->
  ua_success r = true.
Proof.
  unfold updateAppointment, new_UpdateAppointmentResponse.
  unfold_calls. unfold_monad. intros H.
  destruct (fault env (Appointment_find_unique id) db); [discriminate|].
  cbn in H.
  destruct (find (appt_has_id id) (appointments db)); [|discriminate].
  destruct (fault env (Appointment_update _ _ _) db); [discriminate|].
  cbn in H.
  destruct (find (appt_has_id id) _); [|discriminate].
  cbn in H.
  destruct (fault env (Notification_create _ _) _); [discriminate|].
  cbn in H.
  destruct (coerces_model_instance env); [|discriminate].
  now injection H as <- _.
Qed.

(** C5: [updateAppointment(appointmentId=999, newScheduledTime=None,
    status=CANCELLED)] on a store with no appointment 999 and a reliable
    engine does not return a result: it raises a validation error, where the
    claim says it returns success=false with an absent updatedAppointment. *)
Theorem updateAppointment_missing_id_raises :
  updateAppointment demo_env 999 None CANCELLED db_booked
  = (Raised (ValidationError "2 validation errors for UpdateAppointmentResponse"),
     db_booked).
Proof. reflexivity. Qed.

(** ** updateAvailability *)



(** ** updateAppointment and the Availability table *)

Lemma keeps_ret {A} (a : A) : keeps_availability (ret a).
Proof. intros db. cbn. tauto. Qed.

Lemma keeps_raise {A} e : keeps_availability (@raise A e).
Proof. intros db. cbn. tauto. Qed.

Lemma keeps_bind {A B} (m : M A) (k : A -> M B) :
  keeps_availability m -> (forall a, keeps_availability (k a)) ->
  keeps_availability (bind m k).
Proof.
  intros Hm Hk db. unfold bind. specialize (Hm db).
  destruct (m db) as [[a|e] db1]; cbn in Hm.
  - specialize (Hk a db1). intuition congruence.
  - exact Hm.
Qed.

Lemma keeps_attempt {A} (m : M A) :
  keeps_availability m -> keeps_availability (attempt m).
Proof.
  intros Hm db. unfold attempt. specialize (Hm db).
  destruct (m db) as [[a|e] db1]; exact Hm.
Qed.

Lemma keeps_deref {A} (o : option A) attr : keeps_availability (deref o attr).
Proof. destruct o; [apply keeps_ret|apply keeps_raise]. Qed.

Lemma ignores_ret {A} (a : A) : ignores_availability (ret a).
Proof. intros db avs. reflexivity. Qed.

Lemma ignores_raise {A} e : ignores_availability (@raise A e).
Proof. intros db avs. reflexivity. Qed.

Lemma ignores_bind {A B} (m : M A) (k : A -> M B) :
  ignores_availability m -> (forall a, ignores_availability (k a)) ->
  ignores_availability (bind m k).
Proof.
  intros Hm Hk db avs. unfold bind. rewrite Hm.
  destruct (m db) as [[a|e] db1]; cbn.
  - apply Hk.
  - reflexivity.
Qed.

Lemma ignores_attempt {A} (m : M A) :
  ignores_availability m -> ignores_availability (attempt m).
Proof.
  intros Hm db avs. unfold attempt. rewrite Hm.
  destruct (m db) as [[a|e] db1]; reflexivity.
Qed.

Lemma ignores_deref {A} (o : option A) attr : ignores_availability (deref o attr).
Proof. destruct o; [apply ignores_ret|apply ignores_raise]. Qed.

Section UpdateAppointmentFrame.

Variable env : Platform.

Lemma keeps_gateway {A} c (run : DB -> A * DB) :
  (forall db,
     availabilities (snd (run db)) = availabilities db /\
     next_availability_id (snd (run db)) = next_availability_id db /\
     professionals (snd (run db)) = professionals db /\
     userProfiles (snd (run db)) = userProfiles db) ->
  keeps_availability (gateway env c run).
Proof.
  intros Hrun db. unfold gateway.
  destruct (fault env c db); [cbn; tauto|].
  specialize (Hrun db). destruct (run db) as [a db1]. exact Hrun.
Qed.

Lemma keeps_appointment_find_unique id :
  keeps_availability (appointment_find_unique env id).
Proof. apply keeps_gateway. intros db. cbn. tauto. Qed.

Lemma keeps_appointment_update id status t :
  keeps_availability (appointment_update env id status t).
Proof. apply keeps_gateway. intros db. cbn. tauto. Qed.

Lemma keeps_notification_create u message :
  keeps_availability (notification_create env u message).
Proof. apply keeps_gateway. intros db. cbn. tauto. Qed.

Lemma keeps_new_response success message a n :
  keeps_availability (new_UpdateAppointmentResponse env success message a n).
Proof.
  unfold new_UpdateAppointmentResponse.
  destruct a, n, (coerces_model_instance env);
    first [apply keeps_ret | apply keeps_raise].
Qed.

Lemma updateAppointment_keeps id t status :
  keeps_availability (updateAppointment env id t status).
Proof.
  unfold updateAppointment.
  apply keeps_bind.
  - apply keeps_attempt. apply keeps_bind.
    + apply keeps_appointment_find_unique.
    + intros [a|]; [|apply keeps_new_response].
      apply keeps_bind; [apply keeps_appointment_update|]. intros updated.
      apply keeps_bind; [apply keeps_deref|]. intros ua.
      apply keeps_bind; [apply keeps_notification_create|]. intros n.
      apply keeps_new_response.
  - intros [e|r]; [apply keeps_new_response|apply keeps_ret].
Qed.

(** The engine's refusals do not depend on the Availability table. *)
Hypothesis fault_ignores_availability :
  forall c db avs, fault env c (set_availabilities db avs) = fault env c db.

Lemma ignores_gateway {A} c (run : DB -> A * DB) :
  (forall db avs,
     run (set_availabilities db avs)
     = (fst (run db), set_availabilities (snd (run db)) avs)) ->
  ignores_availability (gateway env c run).
Proof.
  intros Hrun db avs. unfold gateway.
  rewrite fault_ignores_availability.
  destruct (fault env c db); [reflexivity|].
  rewrite Hrun. destruct (run db) as [a db1]. reflexivity.
Qed.

Lemma ignores_appointment_find_unique id :
  ignores_availability (appointment_find_unique env id).
Proof. apply ignores_gateway. intros db avs. reflexivity. Qed.

Lemma ignores_appointment_update id status t :
  ignores_availability (appointment_update env id status t).
Proof. apply ignores_gateway. intros db avs. reflexivity. Qed.

Lemma ignores_notification_create u message :
  ignores_availability (notification_create env u message).
Proof. apply ignores_gateway. intros db avs. reflexivity. Qed.

Lemma ignores_new_response success message a n :
  ignores_availability (new_UpdateAppointmentResponse env success message a n).
Proof.
  unfold new_UpdateAppointmentResponse.
  destruct a, n, (coerces_model_instance env);
    first [apply ignores_ret | apply ignores_raise].
Qed.

Lemma updateAppointment_ignores id t status :
  ignores_availability (updateAppointment env id t status).
Proof.
  unfold updateAppointment.
  apply ignores_bind.
  - apply ignores_attempt. apply ignores_bind.
    + apply ignores_appointment_find_unique.
    + intros [a|]; [|apply ignores_new_response].
      apply ignores_bind; [apply ignores_appointment_update|]. intros updated.
      apply ignores_bind; [apply ignores_deref|]. intros ua.
      apply ignores_bind; [apply ignores_notification_create|]. intros n.
      apply ignores_new_response.
  - intros [e|r]; [apply ignores_new_response|apply ignores_ret].
Qed.

End UpdateAppointmentFrame.

(** C8: [updateAppointment] neither writes nor reads the Availability
    table.  For every input (whatever the status, with or without a new
    time) and every engine, returning or raising, the Availability table
    after the call is the table before it; and when the engine's refusals do
    not depend on the Availability table, the call has the same outcome and
    writes the same Appointment and Notification rows on a store whose
    Availability table is any other one. *)
Theorem updateAppointment_availability_untouched env db id t status :
  (availabilities (snd (updateAppointment env id t status db)) = availabilities db /\
   next_availability_id (snd (updateAppointment env id t status db))
   = next_availability_id db /\
   professionals (snd (updateAppointment env id t status db)) = professionals db /\
   userProfiles (snd (updateAppointment env id t status db)) = userProfiles db)
  /\
  ((forall c d avs, fault env c (set_availabilities d avs) = fault env c d) ->
   forall avs,
     updateAppointment env id t status (set_availabilities db avs)
     = (fst (updateAppointment env id t status db),
        set_availabilities (snd (updateAppointment env id t status db)) avs)).
Proof.
  split.
  - apply (updateAppointment_keeps env id t status db).
  - intros Hind avs. apply (updateAppointment_ignores env Hind).
Qed.

Lemma updateAppointment_availability_untouched_witness :
  updateAppointment demo_env 101 (Some 2000) CANCELLED
    (set_availabilities db_booked [])
  = (fst (updateAppointment demo_env 101 (Some 2000) CANCELLED db_booked),
     set_availabilities
       (snd (updateAppointment demo_env 101 (Some 2000) CANCELLED db_booked)) []).
Proof.
  apply (updateAppointment_availability_untouched demo_env db_booked 101
           (Some 2000) CANCELLED).
  intros c d avs. reflexivity.
Defined.

(** ** checkAvailability *)

(** A call with a professionalId never reaches the loop: the query is
    rejected, whatever the store, the date and the engine's other
    decisions. *)
Lemma checkAvailability_with_professional env db pid day :
  checkAvailability env (Some pid) day db
  = (Raised (PrismaError relation_filter_error), db).
Proof. reflexivity. Qed.

(** C9: [checkAvailability(professionalId=2, date=None)] on a store where
    professional 2 has a profile and three slots does not return them: the
    query is rejected and the call raises, where the claim says the call
    returns the rows of the professional and never an error. *)
Theorem checkAvailability_professional_filter_raises :
  checkAvailability demo_env (Some 2) None db_day_zero
  = (Raised (PrismaError relation_filter_error), db_day_zero).
Proof. reflexivity. Qed.

(** ** getAvailableTimeSlots *)

(** C10: for a professionalId with no ProfessionalProfile row (the lookup
    answered), [getAvailableTimeSlots] returns a result with an empty
    availabilities list, does not raise, and leaves the state as it was. *)
Theorem getAvailableTimeSlots_unknown_professional env db professionalId start_date end_date :
  fault env (ProfessionalProfile_find_unique professionalId start_date end_date) db
  = None ->
  (forall p, In p (professionals db) -> pp_id p <> professionalId) ->
  getAvailableTimeSlots env professionalId start_date end_date db
  = (Returned (mkAvailabilityResponse []), db).
Proof.
  intros Hf Hnone.
  assert (E : find (fun p => pp_id p =? professionalId) (professionals db) = None).
  { apply find_none_iff. intros p Hp. apply Z.eqb_neq. now apply Hnone. }
  unfold getAvailableTimeSlots, professional_find_unique, gateway, bind.
  rewrite Hf, E. reflexivity.
Qed.

Lemma getAvailableTimeSlots_unknown_professional_witness :
  getAvailableTimeSlots demo_env 5 0 86400000000 db_late_slot
  = (Returned (mkAvailabilityResponse []), db_late_slot).
Proof.
  apply (getAvailableTimeSlots_unknown_professional demo_env db_late_slot 5 0 86400000000).
  - reflexivity.
  - intros p [<-|[]]. simpl. lia.
Defined.

(** ** Scenarios *)

(** Booking the free slot (2, 1000) for user 1 creates appointment 1 and
    takes the slot: a second booking of the same slot finds none. *)
Example book_then_book_again :
  let first := bookAppointment demo_env 1 2 1000 db_one_free_slot in
  fst first
  = Returned (mkBookingResponse true "Appointment booked successfully." (Some 1))
  /\ availabilities (snd first) = [mkAvailability 1 2 1000 false]
  /\ fst (bookAppointment demo_env 3 2 1000 (snd first))
     = Returned (mkBookingResponse false
                   "No available slots at the requested time." None).
Proof. repeat split. Qed.

(** Cancelling appointment 101 (professional 2, time 1000) frees the slot
    (2, 1000) and leaves the slot (2, 2000) taken. *)
Example cancel_frees_the_slot :
  availabilities (snd (cancelAppointment demo_env 101 db_booked))
  = [mkAvailability 1 2 1000 true; mkAvailability 2 2 2000 false]
  /\ map nt_userId (notifications (snd (cancelAppointment demo_env 101 db_booked)))
     = [1; 2].
Proof. split; reflexivity. Qed.

(** Updating appointment 101 to CANCELLED writes the status and a
    notification and leaves both slots taken. *)
Example update_to_cancelled_keeps_slots :
  let after := snd (updateAppointment demo_env 101 None CANCELLED db_booked) in
  appointments after = [mkAppointment 101 1 2 1000 CANCELLED]
  /\ availabilities after = availabilities db_booked
  /\ map nt_userId (notifications after) = [1].
Proof. repeat split. Qed.

(** * Further properties of the services *)

(** ** Keys stay distinct and fresh *)

Section Preservation.

Context {A : Type} (P : DB -> Prop).

Lemma preserves_ret (a : A) : preserves P (ret a).
Proof. intros db H. exact H. Qed.

Lemma preserves_raise e : preserves P (@raise A e).
Proof. intros db H. exact H. Qed.

Lemma preserves_deref (o : option A) attr : preserves P (deref o attr).
Proof. destruct o; [apply preserves_ret|apply preserves_raise]. Qed.

Lemma preserves_attempt (m : M A) : preserves P m -> preserves P (attempt m).
Proof.
  intros Hm db H. unfold attempt. specialize (Hm db H).
  destruct (m db) as [[a|e] db1]; exact Hm.
Qed.

Lemma preserves_gateway env c (run : DB -> A * DB) :
  (forall db, P db -> P (snd (run db))) -> preserves P (gateway env c run).
Proof.
  intros Hrun db H. unfold gateway.
  destruct (fault env c db); [exact H|].
  specialize (Hrun db H). destruct (run db) as [a db1]. exact Hrun.
Qed.

Lemma preserves_gateway_extra refuses c (run : DB -> A * DB) :
  (forall db, P db -> P (snd (run db))) -> preserves P (gateway_extra refuses c run).
Proof.
  intros Hrun db H. unfold gateway_extra.
  destruct (refuses c db); [exact H|].
  specialize (Hrun db H). destruct (run db) as [a db1]. exact Hrun.
Qed.

End Preservation.

Lemma preserves_bind {A B} (P : DB -> Prop) (m : M A) (k : A -> M B) :
  preserves P m -> (forall a, preserves P (k a)) -> preserves P (bind m k).
Proof.
  intros Hm Hk db H. unfold bind. specialize (Hm db H).
  destruct (m db) as [[a|e] db1]; cbn in Hm.
  - apply Hk. exact Hm.
  - exact Hm.
Qed.

Lemma keyed_map {A} (id : A -> Z) (f : A -> A) l next :
  (forall a, id (f a) = id a) -> keyed id l next -> keyed id (map f l) next.
Proof.
  intros Hid [Hlt Hnd]. split.
  - intros a Ha. apply in_map_iff in Ha. destruct Ha as [b [<- Hb]].
    rewrite Hid. now apply Hlt.
  - rewrite map_map. rewrite (map_ext _ id Hid). exact Hnd.
Qed.

Lemma NoDup_map_filter {A B} (f : A -> B) (p : A -> bool) l :
  NoDup (map f l) -> NoDup (map f (filter p l)).
Proof.
  induction l as [|a l IH]; intros Hnd; [constructor|].
  simpl in *. inversion Hnd as [|? ? Hnotin Hrest]; subst.
  destruct (p a); [|now apply IH].
  simpl. constructor; [|now apply IH].
  intros Hin. apply Hnotin. apply in_map_iff in Hin.
  destruct Hin as [b [Eb Hb]]. apply filter_In in Hb.
  apply in_map_iff. exists b. tauto.
Qed.

Lemma keyed_filter {A} (id : A -> Z) (p : A -> bool) l next :
  keyed id l next -> keyed id (filter p l) next.
Proof.
  intros [Hlt Hnd]. split.
  - intros a Ha. apply filter_In in Ha. now apply Hlt.
  - now apply NoDup_map_filter.
Qed.

Lemma keyed_append {A} (id : A -> Z) l next a :
  id a = next -> keyed id l next -> keyed id (l ++ [a]) (next + 1).
Proof.
  intros Ha [Hlt Hnd]. split.
  - intros b Hb. apply in_app_iff in Hb. destruct Hb as [Hb|[<-|[]]].
    + specialize (Hlt b Hb). lia.
    + lia.
  - rewrite map_app. simpl. apply NoDup_app; [exact Hnd|repeat constructor; auto|].
    intros x Hx [<-|[]]. apply in_map_iff in Hx. destruct Hx as [b [Eb Hb]].
    specialize (Hlt b Hb). lia.
Qed.

Lemma well_formed_append_notifications env rows db :
  well_formed db -> well_formed (append_notifications env rows db).
Proof.
  unfold append_notifications. revert db.
  induction rows as [|r rows IH]; intros db Hwf; [exact Hwf|].
  simpl. apply IH. destruct Hwf as (Hav & Hap & Hnt).
  split; [exact Hav|]. split; [exact Hap|].
  cbn. now apply keyed_append.
Qed.

Section WellFormedCalls.

Variable env : Platform.
Variable refuses : ExtraCall -> DB -> option string.

Lemma wf_availability_find_first p t flag :
  preserves well_formed (availability_find_first env p t flag).
Proof. apply preserves_gateway. intros db H. exact H. Qed.

Lemma wf_availability_update id flag :
  preserves well_formed (availability_update env id flag).
Proof.
  apply preserves_gateway. intros db (Hav & Hrest). split; [|exact Hrest].
  cbn. unfold set_flag_where. apply keyed_map; [|exact Hav].
  intros a. now destruct (has_id id a).
Qed.

Lemma wf_availability_update_many_id id flag :
  preserves well_formed (availability_update_many_id env id flag).
Proof.
  apply preserves_gateway. intros db (Hav & Hrest). split; [|exact Hrest].
  cbn. unfold set_flag_where. apply keyed_map; [|exact Hav].
  intros a. now destruct (has_id id a).
Qed.

Lemma wf_availability_update_many_slot t p flag :
  preserves well_formed (availability_update_many_slot env t p flag).
Proof.
  apply preserves_gateway. intros db (Hav & Hrest). split; [|exact Hrest].
  cbn. unfold set_flag_where. apply keyed_map; [|exact Hav].
  intros a. now destruct (slot_matches p t None a).
Qed.

Lemma wf_availability_create p t flag :
  preserves well_formed (availability_create env p t flag).
Proof.
  apply preserves_gateway. intros db (Hav & Hrest). split; [|exact Hrest].
  cbn. now apply keyed_append.
Qed.

Lemma wf_appointment_find_unique id :
  preserves well_formed (appointment_find_unique env id).
Proof. apply preserves_gateway. intros db H. exact H. Qed.

Lemma wf_appointment_create u p t :
  preserves well_formed (appointment_create env u p t).
Proof.
  apply preserves_gateway. intros db (Hav & Hap & Hnt).
  split; [exact Hav|]. split; [|exact Hnt]. cbn. now apply keyed_append.
Qed.

Lemma wf_appointment_update id status t :
  preserves well_formed (appointment_update env id status t).
Proof.
  apply preserves_gateway. intros db (Hav & Hap & Hnt).
  split; [exact Hav|]. split; [|exact Hnt].
  cbn. unfold update_appointments. apply keyed_map; [|exact Hap].
  intros a. now destruct (appt_has_id id a).
Qed.

Lemma wf_notification_create u message :
  preserves well_formed (notification_create env u message).
Proof.
  apply preserves_gateway. intros db H.
  now apply well_formed_append_notifications.
Qed.

Lemma wf_notification_create_many rows :
  preserves well_formed (notification_create_many env rows).
Proof.
  apply preserves_gateway. intros db H.
  now apply well_formed_append_notifications.
Qed.

Lemma wf_notification_delete id :
  preserves well_formed (notification_delete refuses id).
Proof.
  apply preserves_gateway_extra. intros db (Hav & Hap & Hnt).
  split; [exact Hav|]. split; [exact Hap|]. cbn. now apply keyed_filter.
Qed.

Lemma wf_notification_find_unique id :
  preserves well_formed (notification_find_unique refuses id).
Proof. apply preserves_gateway_extra. intros db H. exact H. Qed.

Lemma wf_notification_update id message isRead :
  preserves well_formed (notification_update refuses id message isRead).
Proof.
  apply preserves_gateway_extra. intros db (Hav & Hap & Hnt).
  split; [exact Hav|]. split; [exact Hap|].
  cbn. apply keyed_map; [|exact Hnt].
  intros n. now destruct (notif_has_id id n).
Qed.

Lemma wf_professional_find id :
  preserves well_formed (professional_find refuses id).
Proof. apply preserves_gateway_extra. intros db H. exact H. Qed.

Lemma wf_availability_delete_many p :
  preserves well_formed (availability_delete_many refuses p).
Proof.
  apply preserves_gateway_extra. intros db (Hav & Hrest). split; [|exact Hrest].
  cbn. now apply keyed_filter.
Qed.

Lemma wf_appointment_delete_many p :
  preserves well_formed (appointment_delete_many refuses p).
Proof.
  apply preserves_gateway_extra. intros db (Hav & Hap & Hnt).
  split; [exact Hav|]. split; [|exact Hnt]. cbn. now apply keyed_filter.
Qed.

Lemma wf_review_delete_many p :
  preserves well_formed (review_delete_many refuses p).
Proof. apply preserves_gateway_extra. intros db H. exact H. Qed.

Lemma wf_professional_delete id :
  preserves well_formed (professional_delete refuses id).
Proof. apply preserves_gateway_extra. intros db H. exact H. Qed.

Lemma wf_new_response success message a n :
  preserves well_formed (new_UpdateAppointmentResponse env success message a n).
Proof.
  unfold new_UpdateAppointmentResponse.
  destruct a, n, (coerces_model_instance env);
    first [apply preserves_ret | apply preserves_raise].
Qed.

End WellFormedCalls.

Ltac preserves_step :=
  first
    [ apply preserves_ret | apply preserves_raise | apply preserves_deref
    | apply wf_availability_find_first | apply wf_availability_update
    | apply wf_availability_update_many_id | apply wf_availability_update_many_slot
    | apply wf_availability_create | apply wf_appointment_find_unique
    | apply wf_appointment_create | apply wf_appointment_update
    | apply wf_notification_create | apply wf_notification_create_many
    | apply wf_notification_delete | apply wf_notification_find_unique
    | apply wf_notification_update | apply wf_professional_find
    | apply wf_availability_delete_many | apply wf_appointment_delete_many
    | apply wf_review_delete_many | apply wf_professional_delete
    | apply wf_new_response
    | apply preserves_attempt
    | apply preserves_bind; [|intros ?]
    | match goal with
      | |- preserves _ (match ?x with _ => _ end) => destruct x
      | |- preserves _ (if ?x then _ else _) => destruct x
      end ].

(** X1: every writing service keeps the store well formed, whether it
    returns or raises: in each of the Availability, Appointment and
    Notification tables the ids stay pairwise distinct and below the
    table's counter. *)
Theorem services_keep_well_formed env refuses :
  (forall u p t, preserves well_formed (bookAppointment env u p t)) /\
  (forall id, preserves well_formed (cancelAppointment env id)) /\
  (forall id t status, preserves well_formed (updateAppointment env id t status)) /\
  (forall p t flag, preserves well_formed (updateAvailability env p t flag)) /\
  (forall u kind content, preserves well_formed (createNotification env u kind content)) /\
  (forall id, preserves well_formed (deleteNotification refuses id)) /\
  (forall id message isRead,
     preserves well_formed (updateNotification refuses id message isRead)) /\
  (forall id, preserves well_formed (deleteProfessionalProfile env refuses id)).
Proof.
  repeat match goal with |- _ /\ _ => split end; intros.
  - unfold bookAppointment. repeat preserves_step.
  - unfold cancelAppointment. repeat preserves_step.
  - unfold updateAppointment. repeat preserves_step.
  - unfold updateAvailability. repeat preserves_step.
  - unfold createNotification. repeat preserves_step.
  - unfold deleteNotification. repeat preserves_step.
  - unfold updateNotification. repeat preserves_step.
  - unfold deleteProfessionalProfile. repeat preserves_step.
Qed.

Ltac solve_keyed :=
  split;
  [ intros ? Hin; cbn in Hin;
    repeat (destruct Hin as [<-|Hin]; [cbn; lia|]); contradiction
  | cbn; repeat (constructor; [cbn; intuition (try discriminate; try lia)|]);
    constructor ].

Lemma db_clinic_well_formed : well_formed db_clinic.
Proof. split; [|split]; solve_keyed. Qed.

Lemma services_keep_well_formed_witness :
  well_formed (snd (bookAppointment demo_env 1 2 3000 db_clinic)) /\
  well_formed (snd (deleteProfessionalProfile demo_env no_refusal 2 db_clinic)).
Proof.
  destruct (services_keep_well_formed demo_env no_refusal)
    as (Hbook & _ & _ & _ & _ & _ & _ & Hdel).
  split.
  - apply (Hbook 1 2 3000 db_clinic). exact db_clinic_well_formed.
  - apply (Hdel 2 db_clinic). exact db_clinic_well_formed.
Defined.

(** ** One row per slot *)

Lemma slot_keys_set_flag_where p flag l :
  map slot_key (set_flag_where p flag l) = map slot_key l.
Proof.
  unfold set_flag_where. rewrite map_map. apply map_ext.
  intros a. now destruct (p a).
Qed.

Lemma availabilities_append_notifications env rows db :
  availabilities (append_notifications env rows db) = availabilities db.
Proof.
  unfold append_notifications. revert db.
  induction rows as [|r rows IH]; intros db; [reflexivity|].
  simpl. now rewrite IH.
Qed.

Ltac unfold_call_names :=
  unfold availability_find_first, availability_update, availability_update_many_id,
    availability_update_many_slot, availability_create, appointment_find_unique,
    appointment_create, appointment_update, notification_create,
    notification_create_many, professional_find, availability_delete_many,
    appointment_delete_many, review_delete_many, professional_delete.

Ltac slot_call :=
  first [apply preserves_gateway | apply preserves_gateway_extra];
  intros ? ?; unfold one_row_per_slot in *; cbn;
  rewrite ?slot_keys_set_flag_where, ?availabilities_append_notifications;
  first [assumption | apply NoDup_map_filter; assumption].

Lemma slot_new_response env success message a n :
  preserves one_row_per_slot (new_UpdateAppointmentResponse env success message a n).
Proof.
  unfold new_UpdateAppointmentResponse.
  destruct a, n, (coerces_model_instance env);
    first [apply preserves_ret | apply preserves_raise].
Qed.

Ltac slot_step :=
  first
    [ apply preserves_ret | apply preserves_raise | apply preserves_deref
    | apply slot_new_response
    | slot_call
    | apply preserves_attempt
    | apply preserves_bind; [|intros ?]
    | match goal with
      | |- preserves _ (match ?x with _ => _ end) => destruct x
      | |- preserves _ (if ?x then _ else _) => destruct x
      end ].

Lemma updateAvailability_keeps_one_row env p t flag :
  preserves one_row_per_slot (updateAvailability env p t flag).
Proof.
  intros db H. unfold updateAvailability. unfold_calls. unfold_monad.
  destruct (fault env (Availability_find_first p t None) db); [exact H|].
  cbn.
  destruct (find (slot_matches p t None) (availabilities db)) as [slot|] eqn:E.
  - destruct (fault env (Availability_update_many_id _ _) db); [exact H|].
    cbn.
    assert (H1 : one_row_per_slot
                   (set_availabilities db
                      (set_flag_where (has_id (av_id slot)) flag (availabilities db)))).
    { unfold one_row_per_slot. cbn. now rewrite slot_keys_set_flag_where. }
    destruct (fault env (Notification_create _ _) _); [exact H1|].
    cbn. exact H1.
  - destruct (fault env (Availability_create _ _ _) db); [exact H|].
    cbn.
    assert (H1 : NoDup (map slot_key
                          (availabilities db ++ [mkAvailability
                             (next_availability_id db) p t flag]))).
    { rewrite map_app. apply NoDup_app; [exact H|repeat constructor; auto|].
      intros k Hk [<-|[]]. apply in_map_iff in Hk. destruct Hk as [a [Ek Ha]].
      pose proof (find_none _ _ E a Ha) as Hm.
      assert (slot_matches p t None a = true) as Hm'.
      { apply slot_matches_spec. unfold slot_key in Ek. cbn in Ek.
        injection Ek as -> ->. tauto. }
      congruence. }
    destruct (fault env (Notification_create _ _) _); exact H1.
Qed.

(** X2: a call that runs alone on the store, with no other call
    interleaved between its awaited steps, keeps "at most one row per
    (professionalId, datetime)", whether it returns or raises; this holds
    for the services that write Availability rows and for the deletion of a
    professional, [updateAvailability] inserting only after its own lookup
    found no row for the pair.  Running alone is needed: when two calls of
    [updateAvailability] for a pair without a row are interleaved so that
    both lookups are answered before either writes, each inserts a row and
    the pair has two. *)
Theorem services_keep_one_row_per_slot env refuses :
  (forall u p t, preserves one_row_per_slot (bookAppointment env u p t)) /\
  (forall id, preserves one_row_per_slot (cancelAppointment env id)) /\
  (forall id t status, preserves one_row_per_slot (updateAppointment env id t status)) /\
  (forall p t flag, preserves one_row_per_slot (updateAvailability env p t flag)) /\
  (forall id, preserves one_row_per_slot (deleteProfessionalProfile env refuses id)) /\
  (forall p t flag1 flag2 db,
     reliable env ->
     (forall a, In a (availabilities db) -> slot_key a <> (p, t)) ->
     availabilities (snd (updateAvailability_interleaved env p t flag1 flag2 db))
     = availabilities db ++
         [mkAvailability (next_availability_id db) p t flag1;
          mkAvailability (next_availability_id db + 1) p t flag2] /\
     ~ one_row_per_slot (snd (updateAvailability_interleaved env p t flag1 flag2 db))).
Proof.
  repeat match goal with |- _ /\ _ => split end; intros.
  - unfold bookAppointment. unfold_call_names. repeat slot_step.
  - unfold cancelAppointment. unfold_call_names. repeat slot_step.
  - unfold updateAppointment. unfold_call_names. repeat slot_step.
  - apply updateAvailability_keeps_one_row.
  - unfold deleteProfessionalProfile. unfold_call_names. repeat slot_step.
  - match goal with Hrel : reliable env, Hnew : forall a, In a _ -> _ |- _ =>
      rename Hrel into Hr; rename Hnew into Hn end.
    assert (E : find (slot_matches p t None) (availabilities db) = None).
    { apply find_none_iff. intros a Ha.
      destruct (slot_matches p t None a) eqn:Em; [|reflexivity].
      apply slot_matches_spec in Em. destruct Em as (Hp & Ht & _).
      exfalso. apply (Hn a Ha). unfold slot_key. now rewrite Hp, Ht. }
    assert (Hav :
      availabilities (snd (updateAvailability_interleaved env p t flag1 flag2 db))
      = availabilities db ++
          [mkAvailability (next_availability_id db) p t flag1;
           mkAvailability (next_availability_id db + 1) p t flag2]).
    { unfold updateAvailability_interleaved. unfold_calls. unfold_monad.
      repeat first [rewrite Hr | rewrite E | progress cbn].
      now rewrite <- app_assoc. }
    split; [exact Hav|].
    unfold one_row_per_slot. rewrite Hav, map_app. cbn.
    intros Hnd. apply NoDup_remove_2 in Hnd. apply Hnd.
    apply in_app_iff. right. now left.
Qed.

Lemma db_clinic_one_row_per_slot : one_row_per_slot db_clinic.
Proof.
  unfold one_row_per_slot. cbn.
  repeat (constructor; [cbn; intuition (try discriminate)|]). constructor.
Qed.

Lemma services_keep_one_row_per_slot_witness :
  one_row_per_slot (snd (updateAvailability demo_env 2 9000 true db_clinic)) /\
  one_row_per_slot (snd (updateAvailability demo_env 2 3000 false db_clinic)) /\
  ~ one_row_per_slot
      (snd (updateAvailability_interleaved demo_env 2 9000 true false db_clinic)).
Proof.
  destruct (services_keep_one_row_per_slot demo_env no_refusal)
    as (_ & _ & _ & Hset & _ & Hrace).
  split; [|split].
  - apply Hset. exact db_clinic_one_row_per_slot.
  - apply Hset. exact db_clinic_one_row_per_slot.
  - apply (Hrace 2 9000 true false db_clinic demo_env_reliable).
    intros a Ha. cbn in Ha.
    repeat (destruct Ha as [<-|Ha]; [discriminate|]). contradiction.
Defined.

(** ** How the booking operations compose *)

Lemma NoDup_map_eq {A B} (f : A -> B) l x y :
  NoDup (map f l) -> In x l -> In y l -> f x = f y -> x = y.
Proof.
  induction l as [|a l IH]; intros Hnd Hx Hy E; [contradiction|].
  simpl in Hnd. inversion Hnd as [|? ? Hnotin Hrest]; subst.
  destruct Hx as [->|Hx], Hy as [->|Hy].
  - reflexivity.
  - exfalso. apply Hnotin. rewrite E. now apply in_map.
  - exfalso. apply Hnotin. rewrite <- E. now apply in_map.
  - now apply IH.
Qed.

Lemma find_map_invariant {A} (p : A -> bool) (f : A -> A) l :
  (forall a, p (f a) = p a) ->
  find p (map f l) = option_map f (find p l).
Proof.
  intros Hp. induction l as [|a l IH]; [reflexivity|].
  simpl. rewrite Hp. now destruct (p a).
Qed.

Lemma find_app_fresh {A} (p : A -> bool) l a :
  (forall x, In x l -> p x = false) -> p a = true -> find p (l ++ [a]) = Some a.
Proof.
  intros Hl Ha. induction l as [|x l IH]; simpl.
  - now rewrite Ha.
  - rewrite (Hl x (or_introl eq_refl)). apply IH.
    intros y Hy. apply Hl. now right.
Qed.

Lemma set_flag_same flag a : av_isAvailable a = flag -> set_flag flag a = a.
Proof. intros <-. now destruct a. Qed.

(** What a booking that reported success has read and written. *)
Lemma book_returned env db u p t r db1 :
  bookAppointment env u p t db = (Returned r, db1) ->
  bk_success r = true ->
  exists reserved,
    find (slot_matches p t (Some true)) (availabilities db) = Some reserved /\
    availabilities db1
    = set_flag_where (has_id (av_id reserved)) false (availabilities db) /\
    appointments db1
    = appointments db ++
        [mkAppointment (next_appointment_id db) u p t (default_status env)] /\
    bk_appointmentId r = Some (next_appointment_id db).
Proof.
  intros Hrun Hok. unfold bookAppointment in Hrun. unfold_calls. unfold_monad.
  destruct (fault env (Availability_find_first _ _ _) db); [discriminate|].
  cbn in Hrun.
  destruct (find (slot_matches p t (Some true)) (availabilities db))
    as [reserved|] eqn:Eres.
  2:{ injection Hrun as <- <-. discriminate. }
  destruct (fault env (Appointment_create _ _ _) db).
  { cbn in Hrun. injection Hrun as <- <-. discriminate. }
  cbn in Hrun.
  destruct (fault env (Availability_update _ _) _); [discriminate|].
  cbn in Hrun.
  destruct (fault env (Notification_create _ _) _); [discriminate|].
  cbn in Hrun. injection Hrun as <- <-.
  exists reserved. repeat split; reflexivity.
Qed.

(** On a reliable engine a booking with a free row for the pair succeeds. *)
Lemma book_progress env db u p t :
  reliable env ->
  (exists slot, In slot (availabilities db) /\
      slot_matches p t (Some true) slot = true) ->
  exists db1,
    bookAppointment env u p t db
    = (Returned (mkBookingResponse true "Appointment booked successfully."
                   (Some (next_appointment_id db))), db1).
Proof.
  intros Hrel Hslot.
  destruct (proj2 (find_some_iff_ex _ _) Hslot) as [reserved Hres].
  unfold bookAppointment. unfold_calls. unfold_monad.
  repeat first [rewrite Hrel | rewrite Hres | progress cbn].
  eexists. reflexivity.
Qed.

(** No free row for the pair: the booking answers "no slot" and writes
    nothing. *)
Lemma book_no_free_row env db u p t :
  fault env (Availability_find_first p t (Some true)) db = None ->
  (forall a, In a (availabilities db) -> slot_key a = (p, t) ->
     av_isAvailable a = false) ->
  bookAppointment env u p t db
  = (Returned (mkBookingResponse false
                 "No available slots at the requested time." None), db).
Proof.
  intros Hf Hnone.
  assert (E : find (slot_matches p t (Some true)) (availabilities db) = None).
  { apply find_none_iff. intros a Ha.
    destruct (slot_matches p t (Some true) a) eqn:Em; [|reflexivity].
    apply slot_matches_spec in Em. destruct Em as (Hp & Ht & Hflag).
    rewrite (Hnone a Ha) in Hflag; [discriminate|].
    unfold slot_key. now rewrite Hp, Ht. }
  unfold bookAppointment, bind, availability_find_first, gateway.
  now rewrite Hf, E.
Qed.

(** X3: with one row per slot, a second booking of a slot that a first
    booking has just taken (whoever asks) returns the failure "No available
    slots at the requested time." and writes nothing. *)
Theorem book_twice_second_fails env db u p t r db1 u2 :
  one_row_per_slot db ->
  bookAppointment env u p t db = (Returned r, db1) ->
  bk_success r = true ->
  fault env (Availability_find_first p t (Some true)) db1 = None ->
  bookAppointment env u2 p t db1
  = (Returned (mkBookingResponse false
                 "No available slots at the requested time." None), db1).
Proof.
  intros Hone Hrun Hok Hf.
  destruct (book_returned env db u p t r db1 Hrun Hok)
    as [reserved (Hres & Hav & _)].
  apply book_no_free_row; [exact Hf|].
  intros a Ha Hkey. rewrite Hav in Ha. unfold set_flag_where in Ha.
  apply in_map_iff in Ha. destruct Ha as [x [Ex Hx]].
  pose proof (find_some _ _ Hres) as [Hin Hm].
  apply slot_matches_spec in Hm. destruct Hm as (Hp & Ht & _).
  assert (x = reserved).
  { apply (NoDup_map_eq slot_key (availabilities db)); try assumption.
    transitivity (slot_key a).
    - subst a. now destruct (has_id (av_id reserved) x).
    - rewrite Hkey. unfold slot_key. now rewrite Hp, Ht. }
  subst x. unfold has_id in Ex. rewrite Z.eqb_refl in Ex. now subst a.
Qed.

Lemma book_twice_second_fails_witness :
  bookAppointment demo_env 9 2 3000
    (snd (bookAppointment demo_env 1 2 3000 db_clinic))
  = (Returned (mkBookingResponse false
                 "No available slots at the requested time." None),
     snd (bookAppointment demo_env 1 2 3000 db_clinic)).
Proof.
  apply (book_twice_second_fails demo_env db_clinic 1 2 3000
           (mkBookingResponse true "Appointment booked successfully." (Some 103))).
  - exact db_clinic_one_row_per_slot.
  - reflexivity.
  - reflexivity.
  - reflexivity.
Defined.

(** X4: on a well-formed store with one row per slot, booking a slot and
    then cancelling the appointment the booking returned puts the
    Availability table back exactly as it was before the booking, and the
    appointment stays in the table with status CANCELLED. *)
Theorem book_then_cancel_restores env db u p t r db1 newid r2 db2 :
  well_formed db ->
  one_row_per_slot db ->
  bookAppointment env u p t db = (Returned r, db1) ->
  bk_appointmentId r = Some newid ->
  cancelAppointment env newid db1 = (Returned r2, db2) ->
  cn_success r2 = true ->
  availabilities db2 = availabilities db /\
  appointments db2 = appointments db ++ [mkAppointment newid u p t CANCELLED].
Proof.
  intros Hwf Hone Hbook Hid Hcancel Hok2.
  assert (Hok : bk_success r = true).
  { unfold bookAppointment in Hbook. unfold_calls. unfold_monad.
    destruct (fault env (Availability_find_first _ _ _) db); [discriminate|].
    cbn in Hbook.
    destruct (find (slot_matches p t (Some true)) (availabilities db)).
    2:{ injection Hbook as <- <-. discriminate. }
    destruct (fault env (Appointment_create _ _ _) db).
    { cbn in Hbook. injection Hbook as <- <-. discriminate. }
    cbn in Hbook.
    destruct (fault env (Availability_update _ _) _); [discriminate|].
    cbn in Hbook.
    destruct (fault env (Notification_create _ _) _); [discriminate|].
    cbn in Hbook. now injection Hbook as <- <-. }
  destruct (book_returned env db u p t r db1 Hbook Hok)
    as [reserved (Hres & Hav & Happ & Hnew)].
  rewrite Hnew in Hid. injection Hid as <-.
  destruct (cancel_returned env db1 _ r2 db2 Hcancel Hok2)
    as [a (Ea & _ & Happ2 & Hav2 & _)].
  destruct Hwf as ((_ & Hnd) & (Hlt & _) & _).
  set (new := mkAppointment (next_appointment_id db) u p t (default_status env)) in *.
  assert (Hfresh : forall x, In x (appointments db) ->
                     appt_has_id (next_appointment_id db) x = false).
  { intros x Hx. unfold appt_has_id. apply Z.eqb_neq.
    specialize (Hlt x Hx). lia. }
  assert (Ea' : a = new).
  { rewrite Happ in Ea.
    rewrite (find_app_fresh _ _ new Hfresh) in Ea; [congruence|].
    unfold appt_has_id. apply Z.eqb_refl. }
  subst a. split.
  - rewrite Hav2, Hav. cbn [new ap_professionalId ap_scheduledTime].
    unfold set_flag_where. rewrite map_map.
    rewrite <- (map_id (availabilities db)) at 2.
    apply map_ext_in. intros x Hx.
    pose proof (find_some _ _ Hres) as [Hin Hm].
    apply slot_matches_spec in Hm. destruct Hm as (Hp & Ht & Hflag).
    destruct (has_id (av_id reserved) x) eqn:Eid.
    + assert (x = reserved).
      { apply (NoDup_map_eq av_id (availabilities db)); try assumption.
        unfold has_id in Eid. now apply Z.eqb_eq. }
      subst x.
      assert (Hm : slot_matches p t None (set_flag false reserved) = true)
        by (apply slot_matches_spec; cbn; tauto).
      rewrite Hm. destruct reserved; cbn in *. now subst.
    + destruct (slot_matches p t None x) eqn:Em; [|reflexivity].
      apply slot_matches_spec in Em. destruct Em as (Hp' & Ht' & _).
      assert (x = reserved).
      { apply (NoDup_map_eq slot_key (availabilities db)); try assumption.
        unfold slot_key. now rewrite Hp, Ht, Hp', Ht'. }
      subst x. unfold has_id in Eid. rewrite Z.eqb_refl in Eid. discriminate.
  - rewrite Happ2, Happ. unfold update_appointments. rewrite map_app.
    cbn [map]. fold new. unfold appt_has_id at 2. cbn [new ap_id].
    rewrite Z.eqb_refl. cbn. f_equal.
    rewrite <- (map_id (appointments db)) at 2.
    apply map_ext_in. intros x Hx. now rewrite (Hfresh x Hx).
Qed.

Lemma book_then_cancel_restores_witness :
  availabilities
    (snd (cancelAppointment demo_env 103
            (snd (bookAppointment demo_env 1 2 3000 db_clinic))))
  = availabilities db_clinic.
Proof.
  apply (book_then_cancel_restores demo_env db_clinic 1 2 3000
           (mkBookingResponse true "Appointment booked successfully." (Some 103))
           (snd (bookAppointment demo_env 1 2 3000 db_clinic)) 103
           (mkCancelBookingResponse true
              "The appointment has been successfully cancelled.")
           (snd (cancelAppointment demo_env 103
                   (snd (bookAppointment demo_env 1 2 3000 db_clinic))))).
  - exact db_clinic_well_formed.
  - exact db_clinic_one_row_per_slot.
  - reflexivity.
  - reflexivity.
  - reflexivity.
  - reflexivity.
Defined.

(** ** updateAvailability composed with itself and with booking *)

(** What a call of [updateAvailability] that returned has written. *)
Lemma updateAvailability_returned env db p t flag r db1 :
  updateAvailability env p t flag db = (Returned r, db1) ->
  notifications db1
  = notifications db ++
      [mkNotification (next_notification_id db) p (availability_message env t flag)
         (clock env) false] /\
  ((exists slot,
      find (slot_matches p t None) (availabilities db) = Some slot /\
      availabilities db1
      = set_flag_where (has_id (av_id slot)) flag (availabilities db))
   \/
   (find (slot_matches p t None) (availabilities db) = None /\
    availabilities db1
    = availabilities db ++ [mkAvailability (next_availability_id db) p t flag])).
Proof.
  intros Hrun. unfold updateAvailability in Hrun. unfold_calls. unfold_monad.
  destruct (fault env (Availability_find_first _ _ _) db); [discriminate|].
  cbn in Hrun.
  destruct (find (slot_matches p t None) (availabilities db)) as [slot|] eqn:E.
  - destruct (fault env (Availability_update_many_id _ _) db); [discriminate|].
    cbn in Hrun.
    destruct (fault env (Notification_create _ _) _); [discriminate|].
    cbn in Hrun. injection Hrun as <- <-.
    split; [reflexivity|]. left. exists slot. split; reflexivity.
  - destruct (fault env (Availability_create _ _ _) db); [discriminate|].
    cbn in Hrun.
    destruct (fault env (Notification_create _ _) _); [discriminate|].
    cbn in Hrun. injection Hrun as <- <-.
    split; [reflexivity|]. right. split; reflexivity.
Qed.

Lemma set_flag_where_twice p flag l :
  (forall a, p (set_flag flag a) = p a) ->
  set_flag_where p flag (set_flag_where p flag l) = set_flag_where p flag l.
Proof.
  intros Hp. unfold set_flag_where. rewrite map_map. apply map_ext.
  intros a. destruct (p a) eqn:E.
  - now rewrite Hp, E.
  - now rewrite E.
Qed.

(** After a returned call, the pair has a row carrying the flag. *)
Lemma updateAvailability_row env db p t flag r db1 :
  updateAvailability env p t flag db = (Returned r, db1) ->
  exists slot, In slot (availabilities db1) /\
    slot_matches p t (Some flag) slot = true.
Proof.
  intros Hrun.
  destruct (updateAvailability_returned env db p t flag r db1 Hrun)
    as [_ [[slot [Efind Hav]]|[Efind Hav]]]; rewrite Hav.
  - pose proof (find_some _ _ Efind) as [Hin Hm].
    apply slot_matches_spec in Hm. destruct Hm as (Hp & Ht & _).
    exists (set_flag flag slot). split.
    + apply In_set_flag_where; [assumption|]. unfold has_id. apply Z.eqb_refl.
    + apply slot_matches_spec. cbn. tauto.
  - exists (mkAvailability (next_availability_id db) p t flag). split.
    + apply in_app_iff. right. now left.
    + apply slot_matches_spec. cbn. tauto.
Qed.

(** X5: on a well-formed store, repeating a returned [updateAvailability]
    with the same arguments leaves the Availability table as the first call
    left it (no second row, same flags); each of the two calls appends one
    Notification. *)
Theorem updateAvailability_idempotent env db p t flag r1 db1 r2 db2 :
  well_formed db ->
  updateAvailability env p t flag db = (Returned r1, db1) ->
  updateAvailability env p t flag db1 = (Returned r2, db2) ->
  availabilities db2 = availabilities db1 /\
  List.length (notifications db2) = (List.length (notifications db) + 2)%nat.
Proof.
  intros Hwf H1 H2.
  destruct (updateAvailability_returned env db p t flag r1 db1 H1) as [Hn1 Hcase1].
  destruct (updateAvailability_returned env db1 p t flag r2 db2 H2) as [Hn2 Hcase2].
  split.
  2:{ rewrite Hn2, Hn1, !length_app. cbn. lia. }
  assert (Hinv : forall slot a, slot_matches p t None (if has_id (av_id slot) a
                                               then set_flag flag a else a)
                           = slot_matches p t None a).
  { intros slot a. now destruct (has_id (av_id slot) a). }
  destruct Hcase1 as [[slot [Efind Hav1]]|[Efind Hav1]].
  - assert (Efind1 : find (slot_matches p t None) (availabilities db1)
                     = Some (set_flag flag slot)).
    { rewrite Hav1. unfold set_flag_where.
      rewrite (find_map_invariant _ _ _ (Hinv slot)), Efind. cbn.
      unfold has_id. now rewrite Z.eqb_refl. }
    destruct Hcase2 as [[slot2 [Efind2 Hav2]]|[Efind2 _]]; [|congruence].
    rewrite Efind1 in Efind2. injection Efind2 as <-.
    rewrite Hav2, Hav1. cbn [set_flag av_id].
    apply set_flag_where_twice. intros a. reflexivity.
  - set (new := mkAvailability (next_availability_id db) p t flag) in *.
    assert (Efind1 : find (slot_matches p t None) (availabilities db1) = Some new).
    { rewrite Hav1. apply find_app_fresh.
      - now apply find_none_iff.
      - apply slot_matches_spec. cbn. tauto. }
    destruct Hcase2 as [[slot2 [Efind2 Hav2]]|[Efind2 _]]; [|congruence].
    rewrite Efind1 in Efind2. injection Efind2 as <-.
    rewrite Hav2, Hav1. unfold set_flag_where. rewrite map_app. cbn.
    unfold has_id at 2. rewrite Z.eqb_refl. f_equal.
    rewrite <- (map_id (availabilities db)) at 2. apply map_ext_in.
    intros x Hx. destruct Hwf as ((Hlt & _) & _).
    specialize (Hlt x Hx). unfold has_id.
    destruct (Z.eqb_spec (av_id x) (next_availability_id db)); [lia|reflexivity].
Qed.

Lemma updateAvailability_idempotent_witness :
  availabilities
    (snd (updateAvailability demo_env 2 9000 true
            (snd (updateAvailability demo_env 2 9000 true db_clinic))))
  = availabilities (snd (updateAvailability demo_env 2 9000 true db_clinic)).
Proof.
  apply (updateAvailability_idempotent demo_env db_clinic 2 9000 true
           (mkAvailabilityUpdateResponse 2 true
              "Availability successfully updated and notification sent.")
           (snd (updateAvailability demo_env 2 9000 true db_clinic))
           (mkAvailabilityUpdateResponse 2 true
              "Availability successfully updated and notification sent.")
           (snd (updateAvailability demo_env 2 9000 true
                   (snd (updateAvailability demo_env 2 9000 true db_clinic))))).
  - exact db_clinic_well_formed.
  - reflexivity.
  - reflexivity.
Defined.

(** X6: [updateAvailability] opens and closes a slot for booking.  After a
    returned call with isAvailable=True, a booking of the pair on a reliable
    engine succeeds; after a returned call with isAvailable=False on a store
    with one row per slot, a booking of the pair returns the failure "No
    available slots at the requested time." and writes nothing. *)
Theorem updateAvailability_gates_booking env db p t flag r db1 u :
  updateAvailability env p t flag db = (Returned r, db1) ->
  (flag = true -> reliable env ->
   exists db2,
     bookAppointment env u p t db1
     = (Returned (mkBookingResponse true "Appointment booked successfully."
                    (Some (next_appointment_id db1))), db2))
  /\
  (flag = false -> one_row_per_slot db ->
   fault env (Availability_find_first p t (Some true)) db1 = None ->
   bookAppointment env u p t db1
   = (Returned (mkBookingResponse false
                  "No available slots at the requested time." None), db1)).
Proof.
  intros Hrun. split.
  - intros -> Hrel. apply book_progress; [exact Hrel|].
    exact (updateAvailability_row env db p t true r db1 Hrun).
  - intros -> Hone Hf. apply book_no_free_row; [exact Hf|].
    intros a Ha Hkey.
    destruct (updateAvailability_returned env db p t false r db1 Hrun)
      as [_ [[slot [Efind Hav]]|[Efind Hav]]]; rewrite Hav in Ha.
    + unfold set_flag_where in Ha. apply in_map_iff in Ha.
      destruct Ha as [x [Ex Hx]].
      pose proof (find_some _ _ Efind) as [Hin Hm].
      apply slot_matches_spec in Hm. destruct Hm as (Hp & Ht & _).
      assert (x = slot).
      { apply (NoDup_map_eq slot_key (availabilities db)); try assumption.
        transitivity (slot_key a).
        - subst a. now destruct (has_id (av_id slot) x).
        - rewrite Hkey. unfold slot_key. now rewrite Hp, Ht. }
      subst x. unfold has_id in Ex. rewrite Z.eqb_refl in Ex. now subst a.
    + apply in_app_iff in Ha. destruct Ha as [Ha|[<-|[]]]; [|reflexivity].
      exfalso. pose proof (find_none _ _ Efind a Ha) as Hm.
      assert (slot_matches p t None a = true) as Hm'.
      { apply slot_matches_spec. unfold slot_key in Hkey.
        injection Hkey as -> ->. tauto. }
      congruence.
Qed.

Lemma updateAvailability_gates_booking_witness :
  (exists db2,
     bookAppointment demo_env 1 2 1000
       (snd (updateAvailability demo_env 2 1000 true db_clinic))
     = (Returned (mkBookingResponse true "Appointment booked successfully."
                    (Some 103)), db2))
  /\
  bookAppointment demo_env 1 2 3000
    (snd (updateAvailability demo_env 2 3000 false db_clinic))
  = (Returned (mkBookingResponse false
                 "No available slots at the requested time." None),
     snd (updateAvailability demo_env 2 3000 false db_clinic)).
Proof.
  split.
  - apply (updateAvailability_gates_booking demo_env db_clinic 2 1000 true
             (mkAvailabilityUpdateResponse 2 true
                "Availability successfully updated and notification sent.")
             (snd (updateAvailability demo_env 2 1000 true db_clinic)) 1).
    + reflexivity.
    + reflexivity.
    + exact demo_env_reliable.
  - apply (updateAvailability_gates_booking demo_env db_clinic 2 3000 false
             (mkAvailabilityUpdateResponse 2 false
                "Availability successfully updated and notification sent.")
             (snd (updateAvailability demo_env 2 3000 false db_clinic)) 1).
    + reflexivity.
    + reflexivity.
    + exact db_clinic_one_row_per_slot.
    + reflexivity.
Defined.

(** ** Writes that stay when a later step is refused *)

(** X7: [bookAppointment] guards only the insert of the Appointment.  When
    the engine refuses the write of the reserved row's flag after the
    insert, the call raises that error, the new Appointment row stays, the
    Availability table is as before (the slot is still free) and no
    Notification is created. *)
Theorem book_no_rollback env db u p t reserved text :
  fault env (Availability_find_first p t (Some true)) db = None ->
  find (slot_matches p t (Some true)) (availabilities db) = Some reserved ->
  fault env (Appointment_create u p t) db = None ->
  fault env (Availability_update (av_id reserved) false)
    (snd (appointment_create env u p t db)) = Some text ->
  exists db1,
    bookAppointment env u p t db = (Raised (PrismaError text), db1) /\
    appointments db1
    = appointments db ++
        [mkAppointment (next_appointment_id db) u p t (default_status env)] /\
    availabilities db1 = availabilities db /\
    notifications db1 = notifications db.
Proof.
  intros Hf Hres Hc Hu.
  unfold bookAppointment. unfold appointment_create, gateway in Hu.
  rewrite Hc in Hu. cbn in Hu.
  unfold_calls. unfold_monad. rewrite Hf, Hres. cbn. rewrite Hc. cbn.
  rewrite Hu. eexists. split; [reflexivity|]. repeat split.
Qed.

Lemma book_no_rollback_witness :
  exists db1,
    bookAppointment (flaky_env refuse_flag_writes) 1 2 3000 db_clinic
    = (Raised (PrismaError "Connection lost"), db1) /\
    appointments db1
    = appointments db_clinic ++ [mkAppointment 103 1 2 3000 PENDING] /\
    availabilities db1 = availabilities db_clinic /\
    notifications db1 = notifications db_clinic.
Proof.
  apply (book_no_rollback (flaky_env refuse_flag_writes) db_clinic 1 2 3000
           (mkAvailability 1 2 3000 true) "Connection lost"); reflexivity.
Defined.

(** X8: [cancelAppointment] guards nothing.  When the engine refuses the
    batch insert of the two Notifications, the call raises that error after
    the status and the slot have been written: the appointment is CANCELLED,
    the matching rows are free, no Notification exists; and a retry (its
    lookup answered) returns "Appointment is already cancelled." and writes
    nothing, so the two Notifications are never created. *)
Theorem cancel_no_rollback env db id a text :
  fault env (Appointment_find_unique id) db = None ->
  find (appt_has_id id) (appointments db) = Some a ->
  ap_status a <> CANCELLED ->
  fault env (Appointment_update id CANCELLED None) db = None ->
  fault env
    (Availability_update_many_slot (ap_scheduledTime a) (ap_professionalId a) true)
    (snd (appointment_update env id CANCELLED None db)) = None ->
  fault env
    (Notification_create_many
       [(ap_userId a, "Your appointment has been cancelled.");
        (ap_professionalId a, "An appointment has been cancelled.")])
    (snd (availability_update_many_slot env (ap_scheduledTime a)
            (ap_professionalId a) true
            (snd (appointment_update env id CANCELLED None db))))
  = Some text ->
  exists db1,
    cancelAppointment env id db = (Raised (PrismaError text), db1) /\
    appointments db1 = update_appointments id CANCELLED None (appointments db) /\
    availabilities db1
    = set_flag_where (slot_matches (ap_professionalId a) (ap_scheduledTime a) None)
        true (availabilities db) /\
    notifications db1 = notifications db /\
    (fault env (Appointment_find_unique id) db1 = None ->
     cancelAppointment env id db1
     = (Returned (mkCancelBookingResponse false
                    "Appointment is already cancelled."), db1)).
Proof.
  intros Hf Ea Hs Hu Hm Hn.
  unfold availability_update_many_slot, appointment_update, gateway in Hm, Hn.
  rewrite Hu in Hm, Hn. cbn in Hm, Hn. rewrite Hm in Hn. cbn in Hn.
  unfold cancelAppointment. unfold_calls. unfold_monad.
  rewrite Hf, Ea.
  destruct (status_eqb (ap_status a) CANCELLED) eqn:Es.
  { apply status_eqb_eq in Es. contradiction. }
  rewrite Hu. cbn. rewrite find_update_appointments, Ea. cbn.
  rewrite Hm. cbn. rewrite Hn.
  eexists. split; [reflexivity|]. cbn.
  do 3 (split; [reflexivity|]).
  intros Hf1. rewrite Hf1. cbn. rewrite find_update_appointments, Ea. reflexivity.
Qed.

Lemma cancel_no_rollback_witness :
  exists db1,
    cancelAppointment (flaky_env refuse_batches) 101 db_clinic
    = (Raised (PrismaError "Connection lost"), db1) /\
    cancelAppointment (flaky_env refuse_batches) 101 db1
    = (Returned (mkCancelBookingResponse false
                   "Appointment is already cancelled."), db1).
Proof.
  destruct (cancel_no_rollback (flaky_env refuse_batches) db_clinic 101
              (mkAppointment 101 1 2 1000 CONFIRMED) "Connection lost")
    as [db1 (H1 & _ & _ & _ & H2)];
    try reflexivity; try discriminate.
  exists db1. split; [exact H1|]. apply H2. reflexivity.
Defined.

(** ** updateAppointment: what it writes and when it raises *)

(** What a call of [updateAppointment] that returned has read and written. *)
Lemma updateAppointment_returned env db id t status r db1 :
  updateAppointment env id t status db = (Returned r, db1) ->
  exists a,
    find (appt_has_id id) (appointments db) = Some a /\
    appointments db1 = update_appointments id status t (appointments db) /\
    availabilities db1 = availabilities db /\
    notifications db1
    = notifications db ++
        [mkNotification (next_notification_id db) (ap_userId a)
           ("Appointment status updated to " ++ str_status env status ++ ".")
           (clock env) false] /\
    r = mkUpdateAppointmentResponse true "Appointment updated successfully."
          (mkAppointmentView
             (match t with Some t' => t' | None => ap_scheduledTime a end) status)
          (mkNotification (next_notification_id db) (ap_userId a)
             ("Appointment status updated to " ++ str_status env status ++ ".")
             (clock env) false).
Proof.
  unfold updateAppointment, new_UpdateAppointmentResponse.
  unfold_calls. unfold_monad. intros H.
  destruct (fault env (Appointment_find_unique id) db); [discriminate|].
  cbn in H.
  destruct (find (appt_has_id id) (appointments db)) as [a|] eqn:Ea; [|discriminate].
  destruct (fault env (Appointment_update _ _ _) db); [discriminate|].
  cbn in H. rewrite find_update_appointments, Ea in H. cbn in H.
  destruct (fault env (Notification_create _ _) _); [discriminate|].
  cbn in H.
  destruct (coerces_model_instance env); [|discriminate].
  injection H as <- <-. exists a. repeat split.
Qed.

(** X9: on a reliable engine, with pydantic taking the updated row for the
    response's model field, [updateAppointment] on an existing id returns
    success: the status is written unconditionally, the scheduled time only
    when a new one is given, the other fields and the other appointments are
    kept, and one Notification to the appointment's user is appended and
    returned. *)
Theorem updateAppointment_success env db id t status a :
  reliable env ->
  coerces_model_instance env = true ->
  find (appt_has_id id) (appointments db) = Some a ->
  exists db1,
    updateAppointment env id t status db
    = (Returned
         (mkUpdateAppointmentResponse true "Appointment updated successfully."
            (mkAppointmentView
               (match t with Some t' => t' | None => ap_scheduledTime a end) status)
            (mkNotification (next_notification_id db) (ap_userId a)
               ("Appointment status updated to " ++ str_status env status ++ ".")
               (clock env) false)), db1) /\
    find (appt_has_id id) (appointments db1)
    = Some (mkAppointment (ap_id a) (ap_userId a) (ap_professionalId a)
              (match t with Some t' => t' | None => ap_scheduledTime a end) status) /\
    (forall x, In x (appointments db) -> ap_id x <> id -> In x (appointments db1)) /\
    List.length (appointments db1) = List.length (appointments db) /\
    notifications db1
    = notifications db ++
        [mkNotification (next_notification_id db) (ap_userId a)
           ("Appointment status updated to " ++ str_status env status ++ ".")
           (clock env) false].
Proof.
  intros Hrel Hco Ea.
  unfold updateAppointment, new_UpdateAppointmentResponse.
  unfold_calls. unfold_monad.
  rewrite Hrel, Ea, Hrel. cbn. rewrite find_update_appointments, Ea. cbn.
  rewrite Hrel. cbn. rewrite Hco. cbn.
  eexists. split; [reflexivity|]. cbn.
  split; [now rewrite find_update_appointments, Ea|]. split.
  { intros x Hx Hid. unfold update_appointments. apply in_map_iff.
    exists x. split; [|exact Hx]. unfold appt_has_id.
    now destruct (Z.eqb_spec (ap_id x) id). }
  split; [apply length_map|reflexivity].
Qed.

Lemma updateAppointment_success_witness :
  exists db1,
    updateAppointment demo_env 101 (Some 5000) COMPLETED db_clinic
    = (Returned
         (mkUpdateAppointmentResponse true "Appointment updated successfully."
            (mkAppointmentView 5000 COMPLETED)
            (mkNotification 3 1 "Appointment status updated to COMPLETED." 0 false)),
       db1) /\
    find (appt_has_id 101) (appointments db1)
    = Some (mkAppointment 101 1 2 5000 COMPLETED).
Proof.
  destruct (updateAppointment_success demo_env db_clinic 101 (Some 5000) COMPLETED
              (mkAppointment 101 1 2 1000 CONFIRMED)
              demo_env_reliable eq_refl eq_refl) as [db1 (H1 & H2 & _)].
  exists db1. split; [exact H1|exact H2].
Defined.

(** X10: [updateAppointment] has no failure result.  Whatever the engine
    and the input: a result it returns has success=true; when the lookup is
    refused, or answered with no row for the id, it raises a validation error
    and the store is unchanged; and when the Notification insert is refused
    after the update, it raises with the appointment already updated. *)
Theorem updateAppointment_failure_raises env db id t status :
  (forall r db1,
     updateAppointment env id t status db = (Returned r, db1) ->
     ua_success r = true)
  /\
  ((fault env (Appointment_find_unique id) db <> None \/
    find (appt_has_id id) (appointments db) = None) ->
   updateAppointment env id t status db
   = (Raised (ValidationError "2 validation errors for UpdateAppointmentResponse"),
      db))
  /\
  (forall a text,
     fault env (Appointment_find_unique id) db = None ->
     find (appt_has_id id) (appointments db) = Some a ->
     fault env (Appointment_update id status t) db = None ->
     fault env
       (Notification_create (ap_userId a)
          ("Appointment status updated to " ++ str_status env status ++ "."))
       (snd (appointment_update env id status t db)) = Some text ->
     exists db1,
       updateAppointment env id t status db
       = (Raised (ValidationError
                    "2 validation errors for UpdateAppointmentResponse"), db1) /\
       appointments db1 = update_appointments id status t (appointments db) /\
       notifications db1 = notifications db).
Proof.
  split; [|split].
  - intros r db1 H.
    destruct (updateAppointment_returned env db id t status r db1 H)
      as [a (_ & _ & _ & _ & ->)]. reflexivity.
  - intros [Hf|E].
    + destruct (fault env (Appointment_find_unique id) db) as [text|] eqn:Ef;
        [|contradiction].
      exact (updateAppointment_refused_lookup env db id t status text Ef).
    + destruct (fault env (Appointment_find_unique id) db) as [text|] eqn:Ef.
      * exact (updateAppointment_refused_lookup env db id t status text Ef).
      * exact (updateAppointment_missing_id env db id t status Ef E).
  - intros a text Hf Ea Hu Hn.
    unfold appointment_update, gateway in Hn. rewrite Hu in Hn. cbn in Hn.
    unfold updateAppointment, new_UpdateAppointmentResponse.
    unfold_calls. unfold_monad.
    rewrite Hf, Ea, Hu. cbn. rewrite find_update_appointments, Ea. cbn.
    rewrite Hn. cbn. eexists. split; [reflexivity|]. split; reflexivity.
Qed.

Lemma updateAppointment_failure_raises_witness :
  updateAppointment demo_env 999 (Some 5000) CONFIRMED db_clinic
  = (Raised (ValidationError "2 validation errors for UpdateAppointmentResponse"),
     db_clinic).
Proof.
  apply (updateAppointment_failure_raises demo_env db_clinic 999 (Some 5000) CONFIRMED).
  right. reflexivity.
Defined.

(** X11: setting an appointment to CANCELLED through [updateAppointment]
    does not free its slot, and closes the way to free it by
    [cancelAppointment]: after a returned update to CANCELLED the
    Availability table is unchanged, and a cancel of the same id (its lookup
    answered) returns "Appointment is already cancelled." and writes
    nothing. *)
Theorem updateAppointment_cancelled_blocks_cancel env db id t r db1 :
  updateAppointment env id t CANCELLED db = (Returned r, db1) ->
  fault env (Appointment_find_unique id) db1 = None ->
  availabilities db1 = availabilities db /\
  cancelAppointment env id db1
  = (Returned (mkCancelBookingResponse false "Appointment is already cancelled."),
     db1).
Proof.
  intros Hrun Hf.
  destruct (updateAppointment_returned env db id t CANCELLED r db1 Hrun)
    as [a (Ea & Happ & Hav & _)].
  split; [exact Hav|].
  unfold cancelAppointment. unfold_calls. unfold_monad.
  rewrite Hf, Happ, find_update_appointments, Ea. reflexivity.
Qed.

Lemma updateAppointment_cancelled_blocks_cancel_witness :
  availabilities (snd (updateAppointment demo_env 101 None CANCELLED db_clinic))
  = availabilities db_clinic /\
  cancelAppointment demo_env 101
    (snd (updateAppointment demo_env 101 None CANCELLED db_clinic))
  = (Returned (mkCancelBookingResponse false "Appointment is already cancelled."),
     snd (updateAppointment demo_env 101 None CANCELLED db_clinic)).
Proof.
  apply (updateAppointment_cancelled_blocks_cancel demo_env db_clinic 101 None
           (mkUpdateAppointmentResponse true "Appointment updated successfully."
              (mkAppointmentView 1000 CANCELLED)
              (mkNotification 3 1 "Appointment status updated to CANCELLED." 0 false))
           (snd (updateAppointment demo_env 101 None CANCELLED db_clinic)));
    reflexivity.
Defined.

(** ** The queries *)

Lemma for_append_collect {A B} (body : A -> M B) (o : A -> Outcome B) rows :
  (forall x db, body x db = (o x, db)) ->
  forall acc db, for_append body rows acc db = (collect o rows acc, db).
Proof.
  intros Hbody. induction rows as [|x rows IH]; intros acc db; [reflexivity|].
  cbn. unfold bind. rewrite Hbody. destruct (o x); [apply IH|reflexivity].
Qed.

Lemma collect_all_returned {A B} (o : A -> Outcome B) (f : A -> B) rows acc :
  (forall x, In x rows -> o x = Returned (f x)) ->
  collect o rows acc = Returned (acc ++ map f rows).
Proof.
  revert acc. induction rows as [|x rows IH]; intros acc H; cbn.
  - now rewrite app_nil_r.
  - rewrite (H x (or_introl eq_refl)).
    rewrite IH by (intros y Hy; apply H; now right).
    now rewrite <- app_assoc.
Qed.

Lemma collect_raises {A B} (o : A -> Outcome B) (Q : Exn -> Prop) rows acc :
  (forall x e, In x rows -> o x = Raised e -> Q e) ->
  (exists x e, In x rows /\ o x = Raised e) ->
  exists e, collect o rows acc = Raised e /\ Q e.
Proof.
  revert acc. induction rows as [|x rows IH]; intros acc HQ [y [e [Hy Ey]]].
  - contradiction.
  - cbn. destruct (o x) as [b|e'] eqn:Ex.
    + apply IH.
      * intros z e0 Hz. apply HQ. now right.
      * destruct Hy as [->|Hy]; [congruence|]. now exists y, e.
    + exists e'. split; [reflexivity|]. apply (HQ x e'); [now left|exact Ex].
Qed.

(** The body of the loop of [getAvailableTimeSlots], without the store. *)
Lemma slot_entry_outcome id profile a db :
  slot_entry id profile a db
  = (match profile with
     | Some u => Returned (slot_view id u a)
     | None => Raised (AttributeError
                         "'NoneType' object has no attribute 'firstName'")
     end, db).
Proof. unfold slot_entry, bind, deref, ret, raise. now destruct profile. Qed.

Lemma professional_rows db p id from to :
  pp_id p = id ->
  filter (fun a => (av_professionalId a =? pp_id p) && slots_where id from to a)
         (availabilities db)
  = filter (in_range id from to) (availabilities db).
Proof.
  intros ->. apply filter_ext. intros a. unfold slots_where, in_range.
  destruct (av_professionalId a =? _), (from <=? av_datetime a),
    (av_datetime a <=? to); reflexivity.
Qed.

Lemma filter_nothing {A} (p : A -> bool) l :
  (forall a, In a l -> p a = false) -> filter p l = [].
Proof.
  induction l as [|a l IH]; intros Hl; [reflexivity|]. cbn.
  rewrite (Hl a (or_introl eq_refl)). apply IH. intros x Hx. apply Hl. now right.
Qed.

(** X12: for a professional that exists and has a profile (the lookup
    answered), [getAvailableTimeSlots] returns one entry per Availability row
    of that professional with start_date <= datetime <= end_date, both ends
    included, in table order; each entry carries the given professionalId,
    the profile's "first last" name, the row's flag, and the row's datetime
    only when the row is available.  The store is unchanged; with
    end_date < start_date the list is empty. *)
Theorem getAvailableTimeSlots_lists_range env db id start_date end_date p u :
  fault env (ProfessionalProfile_find_unique id start_date end_date) db = None ->
  find (fun q => pp_id q =? id) (professionals db) = Some p ->
  profile_of db p = Some u ->
  getAvailableTimeSlots env id start_date end_date db
  = (Returned (mkAvailabilityResponse
                 (map (slot_view id u)
                      (filter (in_range id start_date end_date) (availabilities db)))),
     db)
  /\
  (end_date < start_date ->
   getAvailableTimeSlots env id start_date end_date db
   = (Returned (mkAvailabilityResponse []), db)).
Proof.
  intros Hf Ep Eu.
  assert (Hid : pp_id p = id).
  { apply find_some in Ep. now apply Z.eqb_eq. }
  assert (Hrun : getAvailableTimeSlots env id start_date end_date db
                 = (Returned (mkAvailabilityResponse
                      (map (slot_view id u)
                         (filter (in_range id start_date end_date)
                                 (availabilities db)))), db)).
  { unfold getAvailableTimeSlots, professional_find_unique, gateway.
    unfold bind at 1. rewrite Hf, Ep. cbn [option_map].
    rewrite (professional_rows db p id _ _ Hid), Eu.
    unfold bind, ret.
    rewrite (for_append_collect _ _ _ (slot_entry_outcome id (Some u))).
    rewrite (collect_all_returned _ (slot_view id u)) by reflexivity.
    reflexivity. }
  split; [exact Hrun|].
  intros Hlt. rewrite Hrun. rewrite filter_nothing; [reflexivity|].
  intros a _. unfold in_range.
  destruct (Z.leb_spec start_date (av_datetime a));
    destruct (Z.leb_spec (av_datetime a) end_date);
    rewrite ?andb_false_r; try reflexivity; lia.
Qed.

Lemma getAvailableTimeSlots_lists_range_witness :
  getAvailableTimeSlots demo_env 2 1000 2000 db_clinic
  = (Returned (mkAvailabilityResponse
                 [mkProfessionalAvailability 2 "Ann Lee" false None;
                  mkProfessionalAvailability 2 "Ann Lee" true (Some 2000)]),
     db_clinic).
Proof.
  apply (getAvailableTimeSlots_lists_range demo_env db_clinic 2 1000 2000
           (mkProfessionalProfile 2 7) (mkUserProfile 7 "Ann" "Lee"));
    reflexivity.
Defined.

(** X13: for a professional that exists without a profile row (the lookup
    answered), [getAvailableTimeSlots] raises an AttributeError as soon as one
    of the professional's rows lies in the range, and returns the empty list
    when none does; the store is unchanged either way. *)
Theorem getAvailableTimeSlots_missing_profile env db id start_date end_date p :
  fault env (ProfessionalProfile_find_unique id start_date end_date) db = None ->
  find (fun q => pp_id q =? id) (professionals db) = Some p ->
  profile_of db p = None ->
  ((exists a, In a (availabilities db) /\ in_range id start_date end_date a = true) ->
   getAvailableTimeSlots env id start_date end_date db
   = (Raised (AttributeError "'NoneType' object has no attribute 'firstName'"), db))
  /\
  ((forall a, In a (availabilities db) -> in_range id start_date end_date a = false) ->
   getAvailableTimeSlots env id start_date end_date db
   = (Returned (mkAvailabilityResponse []), db)).
Proof.
  intros Hf Ep Eu.
  assert (Hid : pp_id p = id).
  { apply find_some in Ep. now apply Z.eqb_eq. }
  assert (Hrun : getAvailableTimeSlots env id start_date end_date db
                 = (rows <- for_append (slot_entry id None)
                              (filter (in_range id start_date end_date)
                                      (availabilities db)) [] ;;
                    ret (mkAvailabilityResponse rows)) db).
  { unfold getAvailableTimeSlots, professional_find_unique, gateway.
    unfold bind at 1. rewrite Hf, Ep. cbn [option_map].
    now rewrite (professional_rows db p id _ _ Hid), Eu. }
  rewrite Hrun. unfold bind, ret.
  rewrite (for_append_collect _ _ _ (slot_entry_outcome id None)).
  split.
  - intros [a [Ha Hr]].
    destruct (filter (in_range id start_date end_date) (availabilities db))
      as [|x l] eqn:E.
    + assert (In a []) as [] by (rewrite <- E; apply filter_In; tauto).
    + reflexivity.
  - intros Hnone. now rewrite (filter_nothing _ _ Hnone).
Qed.

Lemma getAvailableTimeSlots_missing_profile_witness :
  getAvailableTimeSlots demo_env 5 0 5000 db_no_profile
  = (Raised (AttributeError "'NoneType' object has no attribute 'firstName'"),
     db_no_profile)
  /\
  getAvailableTimeSlots demo_env 5 3000 5000 db_no_profile
  = (Returned (mkAvailabilityResponse []), db_no_profile).
Proof.
  split.
  - apply (getAvailableTimeSlots_missing_profile demo_env db_no_profile 5 0 5000
             (mkProfessionalProfile 5 8)); try reflexivity.
    exists (mkAvailability 1 5 2000 true). split; [now left|reflexivity].
  - apply (getAvailableTimeSlots_missing_profile demo_env db_no_profile 5 3000 5000
             (mkProfessionalProfile 5 8)); try reflexivity.
    intros a [<-|[]]. reflexivity.
Defined.

Lemma check_entry_pure row db : check_entry row db = (check_entry_outcome row, db).
Proof.
  unfold check_entry, check_entry_outcome, bind, deref, ret, raise.
  destruct row as [a [[p [u|]]|]]; reflexivity.
Qed.

(** X14: [checkAvailability] does not guard the relations it follows.  When
    the query is answered and some row it selects has no professional row,
    or a professional without a profile row, the call raises an
    AttributeError instead of returning a list; the store is unchanged. *)
Theorem checkAvailability_missing_relation env db professionalId day :
  fault env (Availability_find_many professionalId day) db = None ->
  (exists a, In a (availabilities db) /\
     check_where db professionalId day a = true /\
     (professional_of db a = None \/
      exists p, professional_of db a = Some p /\ profile_of db p = None)) ->
  exists text,
    checkAvailability env professionalId day db = (Raised (AttributeError text), db).
Proof.
  intros Hf [a (Ha & Hsel & Hmiss)].
  destruct professionalId as [pid|]; [discriminate Hsel|].
  unfold checkAvailability, availability_find_many, gateway.
  unfold bind at 1. rewrite Hf. unfold bind, ret.
  rewrite (for_append_collect _ _ _ check_entry_pure).
  destruct (collect_raises check_entry_outcome
              (fun e => exists text, e = AttributeError text)
              (map (with_professional db)
                   (filter (check_where db None day) (availabilities db)))
              []) as [e [He [text ->]]].
  - intros [x [[p [u|]]|]] e _ E; cbn in E; try discriminate;
      injection E as <-; eexists; reflexivity.
  - exists (with_professional db a).
    assert (Hin : In (with_professional db a)
                    (map (with_professional db)
                       (filter (check_where db None day)
                               (availabilities db)))).
    { apply in_map. apply filter_In. tauto. }
    unfold with_professional in *. unfold check_entry_outcome.
    destruct Hmiss as [Hp|[p [Hp Hu]]]; rewrite Hp in *; cbn in *.
    + eexists. split; [exact Hin|reflexivity].
    + rewrite Hu in *. eexists. split; [exact Hin|reflexivity].
  - exists text. now rewrite He.
Qed.

Lemma checkAvailability_missing_relation_witness :
  exists text,
    checkAvailability demo_env None None db_no_profile
    = (Raised (AttributeError text), db_no_profile).
Proof.
  apply (checkAvailability_missing_relation demo_env db_no_profile None None).
  - reflexivity.
  - exists (mkAvailability 1 5 2000 true). split; [now left|].
    split; [reflexivity|]. right. exists (mkProfessionalProfile 5 8).
    split; reflexivity.
Defined.

(** X15: the three queries write nothing: whatever the engine answers and
    whether they return or raise, the store after [checkAvailability],
    [getAvailableTimeSlots] or [fetchAvailabilityHistory] is the store
    before. *)
Theorem queries_are_read_only env refuses :
  (forall professionalId day, read_only (checkAvailability env professionalId day)) /\
  (forall id start_date end_date,
     read_only (getAvailableTimeSlots env id start_date end_date)) /\
  (forall id, read_only (fetchAvailabilityHistory refuses id)).
Proof.
  split; [|split].
  - intros pid day db. destruct pid as [pid|]; [reflexivity|].
    unfold checkAvailability, availability_find_many, gateway.
    unfold bind at 1. destruct (fault env _ db); [reflexivity|].
    unfold bind, ret. rewrite (for_append_collect _ _ _ check_entry_pure).
    now destruct (collect _ _ _).
  - intros id s e db. unfold getAvailableTimeSlots, professional_find_unique, gateway.
    unfold bind at 1. destruct (fault env _ db); [reflexivity|].
    destruct (find _ (professionals db)) as [p|]; [|reflexivity].
    cbn [option_map]. unfold bind, ret.
    rewrite (for_append_collect _ _ _ (slot_entry_outcome id (profile_of db p))).
    now destruct (collect _ _ _).
  - intros id db. unfold fetchAvailabilityHistory, availability_history,
      gateway_extra, bind, ret.
    now destruct (refuses _ db).
Qed.

(** ** createNotification, deleteNotification, updateNotification *)

(** X16: [createNotification] never raises.  When the engine takes the
    insert it returns success=true with "Notification queued successfully."
    and has appended exactly one unread Notification for the recipient with
    text "[type] content"; when the engine refuses the insert it returns
    success=false with the error's text and the store is unchanged. *)
Theorem createNotification_never_raises env db recipient kind content :
  exists r db1,
    createNotification env recipient kind content db = (Returned r, db1) /\
    (fault env (Notification_create recipient ("[" ++ kind ++ "] " ++ content)) db
     = None ->
     r = mkCreateNotificationResponse true "Notification queued successfully." /\
     notifications db1
     = notifications db ++
         [mkNotification (next_notification_id db) recipient
            ("[" ++ kind ++ "] " ++ content) (clock env) false] /\
     availabilities db1 = availabilities db /\ appointments db1 = appointments db) /\
    (forall text,
       fault env (Notification_create recipient ("[" ++ kind ++ "] " ++ content)) db
       = Some text ->
       r = mkCreateNotificationResponse false text /\ db1 = db).
Proof.
  unfold createNotification. unfold_calls. unfold_monad.
  destruct (fault env (Notification_create _ _) db) as [text|]; cbn.
  - eexists. eexists. split; [reflexivity|]. split; [discriminate|].
    intros text' E. injection E as <-. split; reflexivity.
  - eexists. eexists. split; [reflexivity|]. split; [|discriminate].
    intros _. repeat split.
Qed.

Lemma filter_everything {A} (p : A -> bool) l :
  (forall a, In a l -> p a = true) -> filter p l = l.
Proof.
  induction l as [|a l IH]; intros Hl; [reflexivity|]. cbn.
  rewrite (Hl a (or_introl eq_refl)). f_equal. apply IH.
  intros x Hx. apply Hl. now right.
Qed.

Lemma set_notifications_same db : set_notifications db (notifications db) = db.
Proof. now destruct db. Qed.

(** X17: [deleteNotification] (the call answered) removes the rows with the
    given id, keeps every other row in order, and returns that id with
    "Notification deleted successfully."; with pairwise distinct ids exactly
    one row goes.  When no row has the id it raises an AttributeError (the
    client returned None) and the store is unchanged. *)
Theorem deleteNotification_effect refuses db id :
  refuses (Notification_delete id) db = None ->
  (forall n, find (notif_has_id id) (notifications db) = Some n ->
     exists db1,
       deleteNotification refuses id db
       = (Returned (mkDeleteNotificationResponse
                      "Notification deleted successfully." id), db1) /\
       notifications db1
       = filter (fun x => negb (nt_id x =? id)) (notifications db) /\
       (forall x, In x (notifications db1) <-> In x (notifications db) /\ nt_id x <> id) /\
       (NoDup (map nt_id (notifications db)) ->
        S (List.length (notifications db1)) = List.length (notifications db)))
  /\
  (find (notif_has_id id) (notifications db) = None ->
   deleteNotification refuses id db
   = (Raised (AttributeError "'NoneType' object has no attribute 'id'"), db)).
Proof.
  intros Hf. split.
  - intros n En.
    pose proof (find_some _ _ En) as [Hin Hid].
    unfold notif_has_id in Hid. apply Z.eqb_eq in Hid.
    unfold deleteNotification, notification_delete, gateway_extra.
    unfold_monad. rewrite Hf, En. cbn. rewrite Hid.
    eexists. split; [reflexivity|]. cbn. split; [reflexivity|]. split.
    + intros x. rewrite filter_In. unfold notif_has_id.
      destruct (Z.eqb_spec (nt_id x) id); cbn; intuition congruence.
    + intros Hnd. clear En Hf. revert Hin Hnd.
      induction (notifications db) as [|y l IH]; intros Hin Hnd; [contradiction|].
      cbn in *. inversion Hnd as [|? ? Hnotin Hrest]; subst.
      unfold notif_has_id at 1. destruct (Z.eqb_spec (nt_id y) (nt_id n)) as [E|E]; cbn.
      * rewrite filter_everything; [reflexivity|].
        intros x Hx. unfold notif_has_id.
        destruct (Z.eqb_spec (nt_id x) (nt_id n)) as [E'|E']; [|reflexivity].
        exfalso. apply Hnotin. rewrite E, <- E'. now apply in_map.
      * f_equal. apply IH; [|assumption].
        destruct Hin as [->|Hin]; [contradiction|assumption].
  - intros En.
    unfold deleteNotification, notification_delete, gateway_extra.
    unfold_monad. rewrite Hf, En. cbn. f_equal.
    rewrite filter_everything; [apply set_notifications_same|].
    intros x Hx. now rewrite (find_none _ _ En x Hx).
Qed.

Lemma deleteNotification_effect_witness :
  (exists db1,
     deleteNotification no_refusal 1 db_clinic
     = (Returned (mkDeleteNotificationResponse
                    "Notification deleted successfully." 1), db1) /\
     notifications db1 = [mkNotification 2 2 "world" 0 true])
  /\
  deleteNotification no_refusal 9 db_clinic
  = (Raised (AttributeError "'NoneType' object has no attribute 'id'"), db_clinic).
Proof.
  destruct (deleteNotification_effect no_refusal db_clinic 1 eq_refl) as [H1 _].
  destruct (deleteNotification_effect no_refusal db_clinic 9 eq_refl) as [_ H2].
  split.
  - destruct (H1 (mkNotification 1 1 "hello" 0 false) eq_refl)
      as [db1 (Hrun & Hn & _)].
    exists db1. split; [exact Hrun|exact Hn].
  - apply H2. reflexivity.
Defined.

Lemma map_rewrite_same (id : Z) message isRead (n : Notification) l :
  NoDup (map nt_id l) -> In n l -> nt_id n = id ->
  nt_message n = message -> nt_isRead n = isRead ->
  map (fun x => if notif_has_id id x then rewrite_notification message isRead x else x) l
  = l.
Proof.
  intros Hnd Hin Hid Hm Hr. rewrite <- (map_id l) at 2. apply map_ext_in.
  intros x Hx. unfold notif_has_id.
  destruct (Z.eqb_spec (nt_id x) id) as [E|E]; [|reflexivity].
  assert (x = n) by (apply (NoDup_map_eq nt_id l); congruence).
  subst x. destruct n; cbn in *. now subst.
Qed.

(** X18: [updateNotification] (its calls answered).  For an id with no row
    it returns success=false with empty updatedFields and writes nothing.
    For an existing row it writes message and isRead on it and returns
    success=true, and updatedFields names exactly the fields whose new value
    differs from the stored one: "message" iff the message differs, "isRead"
    iff the flag differs; when it is empty and ids are distinct, the
    Notification table is unchanged. *)
Theorem updateNotification_effect refuses db id message isRead :
  refuses (Notification_find_unique id) db = None ->
  (find (notif_has_id id) (notifications db) = None ->
   updateNotification refuses id message isRead db
   = (Returned (mkUpdateNotificationResponse false id []), db))
  /\
  (forall n,
     find (notif_has_id id) (notifications db) = Some n ->
     refuses (Notification_update id message isRead) db = None ->
     exists fields db1,
       updateNotification refuses id message isRead db
       = (Returned (mkUpdateNotificationResponse true id fields), db1) /\
       find (notif_has_id id) (notifications db1)
       = Some (mkNotification (nt_id n) (nt_userId n) message (nt_createdAt n) isRead) /\
       (In ("message", StrValue message) fields <-> message <> nt_message n) /\
       (In ("isRead", BoolValue isRead) fields <-> isRead <> nt_isRead n) /\
       (forall k v, In (k, v) fields ->
          (k, v) = ("message", StrValue message) \/ (k, v) = ("isRead", BoolValue isRead)) /\
       (fields = [] -> NoDup (map nt_id (notifications db)) ->
        notifications db1 = notifications db)).
Proof.
  intros Hf. split.
  - intros En. unfold updateNotification, notification_find_unique, gateway_extra.
    unfold_monad. now rewrite Hf, En.
  - intros n En Hu.
    unfold updateNotification, notification_find_unique, notification_update,
      gateway_extra. unfold_monad. rewrite Hf, En, Hu. cbn.
    eexists. eexists. split; [reflexivity|]. cbn.
    split.
    { rewrite find_map_invariant
        by (intros x; destruct (notif_has_id id x) eqn:E; exact E).
      rewrite En. cbn. now rewrite (proj2 (find_some _ _ En)). }
    destruct (String.eqb_spec message (nt_message n)) as [Em|Em];
      destruct (Bool.eqb isRead (nt_isRead n)) eqn:Er;
      [apply Bool.eqb_prop in Er | apply Bool.eqb_false_iff in Er
      | apply Bool.eqb_prop in Er | apply Bool.eqb_false_iff in Er]; cbn.
    + split; [tauto|]. split; [tauto|]. split; [intros k v []|].
      intros _ Hnd. pose proof (find_some _ _ En) as [Hin Hid].
      apply (map_rewrite_same id message isRead n); auto.
      now apply Z.eqb_eq.
    + split; [intuition (try discriminate; try congruence)|].
      split; [intuition (try discriminate; try congruence)|].
      split; [intros k v [E|[]]; now right|discriminate].
    + split; [intuition (try discriminate; try congruence)|].
      split; [intuition (try discriminate; try congruence)|].
      split; [intros k v [E|[]]; now left|discriminate].
    + split; [intuition (try discriminate; try congruence)|].
      split; [intuition (try discriminate; try congruence)|].
      split; [intros k v [E|[E|[]]]; [now left|now right]|discriminate].
Qed.

Lemma updateNotification_effect_witness :
  updateNotification no_refusal 9 "x" true db_clinic
  = (Returned (mkUpdateNotificationResponse false 9 []), db_clinic)
  /\
  exists fields db1,
    updateNotification no_refusal 1 "hello" true db_clinic
    = (Returned (mkUpdateNotificationResponse true 1 fields), db1) /\
    (In ("isRead", BoolValue true) fields <-> true <> false).
Proof.
  destruct (updateNotification_effect no_refusal db_clinic 9 "x" true eq_refl)
    as [H1 _].
  destruct (updateNotification_effect no_refusal db_clinic 1 "hello" true eq_refl)
    as [_ H2].
  split.
  - apply H1. reflexivity.
  - destruct (H2 (mkNotification 1 1 "hello" 0 false) eq_refl eq_refl)
      as [fields [db1 (Hrun & _ & _ & Hr & _)]].
    exists fields, db1. split; [exact Hrun|exact Hr].
Defined.

(** ** fetchAvailabilityHistory *)

Lemma insert_by_datetime_perm a l : Permutation (insert_by_datetime a l) (a :: l).
Proof.
  induction l as [|b l IH]; cbn; [reflexivity|].
  destruct (av_datetime a <=? av_datetime b); [reflexivity|].
  rewrite IH. apply perm_swap.
Qed.

Lemma order_by_datetime_perm l : Permutation (order_by_datetime l) l.
Proof.
  induction l as [|a l IH]; cbn; [reflexivity|].
  rewrite insert_by_datetime_perm. now constructor.
Qed.

Lemma insert_by_datetime_sorted a l :
  StronglySorted (fun x y => av_datetime x <= av_datetime y) l ->
  StronglySorted (fun x y => av_datetime x <= av_datetime y) (insert_by_datetime a l).
Proof.
  induction l as [|b l IH]; intros Hs; cbn.
  - repeat constructor.
  - inversion Hs as [|? ? Hrest Hall]; subst.
    destruct (Z.leb_spec (av_datetime a) (av_datetime b)) as [Hle|Hlt].
    + constructor; [exact Hs|]. constructor; [exact Hle|].
      eapply Forall_impl; [|exact Hall]. cbn. intros x Hx. lia.
    + constructor; [now apply IH|].
      apply Forall_forall. intros x Hx.
      apply (Permutation_in _ (insert_by_datetime_perm a l)) in Hx.
      destruct Hx as [<-|Hx]; [lia|].
      rewrite Forall_forall in Hall. now apply Hall.
Qed.

Lemma order_by_datetime_sorted l :
  StronglySorted (fun x y => av_datetime x <= av_datetime y) (order_by_datetime l).
Proof.
  induction l as [|a l IH]; cbn; [constructor|].
  now apply insert_by_datetime_sorted.
Qed.

Lemma sorted_records l :
  StronglySorted (fun x y => av_datetime x <= av_datetime y) l ->
  StronglySorted (fun x y => rec_datetime x <= rec_datetime y) (map record_of l).
Proof.
  induction 1 as [|a l Hs IH Hall]; cbn; constructor; [exact IH|].
  apply Forall_forall. intros r Hr. apply in_map_iff in Hr.
  destruct Hr as [b [<- Hb]]. rewrite Forall_forall in Hall. cbn. now apply Hall.
Qed.

(** X19: [fetchAvailabilityHistory] (the query answered) returns the
    (datetime, isAvailable) records of exactly the Availability rows of the
    professional, each row once, by ascending datetime; a professional
    without rows gets the empty history; the store is unchanged. *)
Theorem fetchAvailabilityHistory_sorted refuses db id :
  refuses (Availability_history id) db = None ->
  exists records,
    fetchAvailabilityHistory refuses id db
    = (Returned (mkAvailabilityHistoryResponse records), db) /\
    Permutation records
      (map record_of (filter (of_professional id) (availabilities db))) /\
    StronglySorted (fun x y => rec_datetime x <= rec_datetime y) records /\
    ((forall a, In a (availabilities db) -> av_professionalId a <> id) ->
     records = []).
Proof.
  intros Hf. unfold fetchAvailabilityHistory, availability_history, gateway_extra.
  unfold_monad. rewrite Hf. cbn.
  eexists. split; [reflexivity|]. split; [|split].
  - apply Permutation_map. apply order_by_datetime_perm.
  - apply sorted_records. apply order_by_datetime_sorted.
  - intros Hnone. rewrite filter_nothing; [reflexivity|].
    intros a Ha. unfold of_professional. apply Z.eqb_neq. now apply Hnone.
Qed.

Lemma fetchAvailabilityHistory_sorted_witness :
  exists records,
    fetchAvailabilityHistory no_refusal 2 db_clinic
    = (Returned (mkAvailabilityHistoryResponse records), db_clinic) /\
    StronglySorted (fun x y => rec_datetime x <= rec_datetime y) records.
Proof.
  destruct (fetchAvailabilityHistory_sorted no_refusal db_clinic 2 eq_refl)
    as [records (Hrun & _ & Hsorted & _)].
  exists records. split; [exact Hrun|exact Hsorted].
Defined.

(** ** deleteProfessionalProfile *)

(** What a call of [deleteProfessionalProfile] that reported no error has
    read and written. *)
Lemma deleteProfessionalProfile_done env refuses db id r db1 :
  deleteProfessionalProfile env refuses id db = (Returned r, db1) ->
  dp_error r = None ->
  exists p,
    find (prof_has_id id) (professionals db) = Some p /\
    availabilities db1
    = filter (fun a => negb (of_professional id a)) (availabilities db) /\
    appointments db1
    = filter (fun a => negb (appt_of_professional id a)) (appointments db) /\
    professionals db1
    = filter (fun q => negb (prof_has_id id q)) (professionals db) /\
    notifications db1
    = notifications db ++
        [mkNotification (next_notification_id db) (pp_profileId p)
           ("Professional Profile with ID " ++ str_int id ++ " has been deleted.")
           (clock env) false] /\
    r = mkDeleteProfessionalResponse "Professional profile successfully deleted." None.
Proof.
  intros Hrun Hok. unfold deleteProfessionalProfile in Hrun.
  unfold professional_find, availability_delete_many, appointment_delete_many,
    review_delete_many, professional_delete, gateway_extra in Hrun.
  unfold_calls. unfold_monad.
  destruct (refuses (ProfessionalProfile_find id) db).
  { cbn in Hrun. injection Hrun as <- <-. discriminate. }
  cbn in Hrun.
  destruct (find (prof_has_id id) (professionals db)) as [p|] eqn:Ep.
  2:{ cbn in Hrun. injection Hrun as <- <-. discriminate. }
  destruct (refuses (Availability_delete_many id) db).
  { cbn in Hrun. injection Hrun as <- <-. discriminate. }
  cbn in Hrun.
  destruct (refuses (Appointment_delete_many id) _).
  { cbn in Hrun. injection Hrun as <- <-. discriminate. }
  cbn in Hrun.
  destruct (refuses (Review_delete_many id) _).
  { cbn in Hrun. injection Hrun as <- <-. discriminate. }
  cbn in Hrun.
  destruct (refuses (ProfessionalProfile_delete id) _).
  { cbn in Hrun. injection Hrun as <- <-. discriminate. }
  cbn in Hrun.
  destruct (fault env (Notification_create _ _) _).
  { cbn in Hrun. injection Hrun as <- <-. discriminate. }
  cbn in Hrun. injection Hrun as <- <-.
  exists p. repeat split.
Qed.

Lemma attempt_handled {A} (m : M A) (handler : Exn -> A) db :
  exists r db1,
    (guarded <- attempt m ;;
     match guarded with
     | inr response => ret response
     | inl e => ret (handler e)
     end) db = (Returned r, db1).
Proof.
  unfold bind, attempt, ret. destruct (m db) as [[a|e] db1]; eexists; eexists; reflexivity.
Qed.

(** X20: [deleteProfessionalProfile] never raises: every exception becomes
    a result with an error text.  A result without error means the cascade
    ran: no Availability row and no Appointment of the professional is left,
    the rows of every other professional are kept in order, the profile row
    is gone, and one Notification went to the profile's profileId.  An id
    with no profile row (the lookup answered) gives the error "Professional
    profile not found." and an unchanged store. *)
Theorem deleteProfessionalProfile_cascade env refuses db id :
  (exists r db1, deleteProfessionalProfile env refuses id db = (Returned r, db1))
  /\
  (forall r db1,
     deleteProfessionalProfile env refuses id db = (Returned r, db1) ->
     dp_error r = None ->
     (forall a, In a (availabilities db1) <->
                In a (availabilities db) /\ av_professionalId a <> id) /\
     (forall a, In a (appointments db1) <->
                In a (appointments db) /\ ap_professionalId a <> id) /\
     (forall q, In q (professionals db1) <->
                In q (professionals db) /\ pp_id q <> id) /\
     exists p,
       find (prof_has_id id) (professionals db) = Some p /\
       notifications db1
       = notifications db ++
           [mkNotification (next_notification_id db) (pp_profileId p)
              ("Professional Profile with ID " ++ str_int id ++ " has been deleted.")
              (clock env) false])
  /\
  (refuses (ProfessionalProfile_find id) db = None ->
   find (prof_has_id id) (professionals db) = None ->
   deleteProfessionalProfile env refuses id db
   = (Returned (mkDeleteProfessionalResponse ""
                  (Some "Professional profile not found.")), db)).
Proof.
  split; [|split].
  - unfold deleteProfessionalProfile. apply attempt_handled.
  - intros r db1 Hrun Hok.
    destruct (deleteProfessionalProfile_done env refuses db id r db1 Hrun Hok)
      as [p (Ep & Hav & Hap & Hpr & Hnt & _)].
    split; [|split; [|split]].
    + intros a. rewrite Hav, filter_In. unfold of_professional.
      destruct (Z.eqb_spec (av_professionalId a) id); cbn; intuition congruence.
    + intros a. rewrite Hap, filter_In. unfold appt_of_professional.
      destruct (Z.eqb_spec (ap_professionalId a) id); cbn; intuition congruence.
    + intros q. rewrite Hpr, filter_In. unfold prof_has_id.
      destruct (Z.eqb_spec (pp_id q) id); cbn; intuition congruence.
    + exists p. split; assumption.
  - intros Hf Ep. unfold deleteProfessionalProfile, professional_find, gateway_extra.
    unfold_monad. now rewrite Hf, Ep.
Qed.

Lemma deleteProfessionalProfile_cascade_witness :
  deleteProfessionalProfile demo_env no_refusal 9 db_clinic
  = (Returned (mkDeleteProfessionalResponse ""
                 (Some "Professional profile not found.")), db_clinic)
  /\
  availabilities (snd (deleteProfessionalProfile demo_env no_refusal 2 db_clinic))
  = [mkAvailability 3 5 2000 true].
Proof.
  destruct (deleteProfessionalProfile_cascade demo_env no_refusal db_clinic 9)
    as (_ & _ & H). split; [apply H; reflexivity|reflexivity].
Defined.

(** X21: after [deleteProfessionalProfile] reported no error, the
    professional is gone for the booking flow: [getAvailableTimeSlots] for
    the id returns the empty list and [bookAppointment] with the id returns
    "No available slots at the requested time." at any time (their lookups
    answered), both without writing. *)
Theorem deleteProfessionalProfile_then_booking env refuses db id r db1 :
  deleteProfessionalProfile env refuses id db = (Returned r, db1) ->
  dp_error r = None ->
  (forall start_date end_date,
     fault env (ProfessionalProfile_find_unique id start_date end_date) db1 = None ->
     getAvailableTimeSlots env id start_date end_date db1
     = (Returned (mkAvailabilityResponse []), db1))
  /\
  (forall u t,
     fault env (Availability_find_first id t (Some true)) db1 = None ->
     bookAppointment env u id t db1
     = (Returned (mkBookingResponse false
                    "No available slots at the requested time." None), db1)).
Proof.
  intros Hrun Hok.
  destruct (deleteProfessionalProfile_done env refuses db id r db1 Hrun Hok)
    as [p (_ & Hav & _ & Hpr & _)].
  split.
  - intros s e Hf.
    assert (E : find (fun q => pp_id q =? id) (professionals db1) = None).
    { apply find_none_iff. intros q Hq. rewrite Hpr in Hq.
      apply filter_In in Hq. destruct Hq as [_ Hq]. unfold prof_has_id in Hq.
      now destruct (pp_id q =? id). }
    unfold getAvailableTimeSlots, professional_find_unique, gateway, bind.
    now rewrite Hf, E.
  - intros u t Hf. apply book_no_free_row; [exact Hf|].
    intros a Ha Hkey. exfalso. rewrite Hav in Ha. apply filter_In in Ha.
    destruct Ha as [_ Ha]. unfold of_professional in Ha.
    unfold slot_key in Hkey. injection Hkey as Hp _.
    rewrite Hp, Z.eqb_refl in Ha. discriminate.
Qed.

Lemma deleteProfessionalProfile_then_booking_witness :
  bookAppointment demo_env 1 2 3000
    (snd (deleteProfessionalProfile demo_env no_refusal 2 db_clinic))
  = (Returned (mkBookingResponse false
                 "No available slots at the requested time." None),
     snd (deleteProfessionalProfile demo_env no_refusal 2 db_clinic)).
Proof.
  destruct (deleteProfessionalProfile_then_booking demo_env no_refusal db_clinic 2
              (mkDeleteProfessionalResponse
                 "Professional profile successfully deleted." None)
              (snd (deleteProfessionalProfile demo_env no_refusal 2 db_clinic))
              eq_refl eq_refl) as [_ H].
  apply H. reflexivity.
Defined.

Lemma createNotification_never_raises_witness :
  exists r db1,
    createNotification demo_env 1 "ALERT" "Your appointment is now confirmed" db_clinic
    = (Returned r, db1) /\
    r = mkCreateNotificationResponse true "Notification queued successfully.".
Proof.
  destruct (createNotification_never_raises demo_env db_clinic 1 "ALERT"
              "Your appointment is now confirmed") as [r [db1 (Hrun & Hok & _)]].
  exists r, db1. split; [exact Hrun|]. apply Hok. reflexivity.
Defined.

(** The history of professional 2 in the example store, by evaluation. *)
Example history_of_professional_2 :
  fst (fetchAvailabilityHistory no_refusal 2 db_clinic)
  = Returned (mkAvailabilityHistoryResponse
                [mkAvailabilityRecord 1000 false; mkAvailabilityRecord 2000 true;
                 mkAvailabilityRecord 3000 true]).
Proof. reflexivity. Qed.

(** Deleting professional 2 in the example store: its three slots and its
    appointment go, professional 5 keeps its own. *)
Example delete_professional_2 :
  let after := snd (deleteProfessionalProfile demo_env no_refusal 2 db_clinic) in
  availabilities after = [mkAvailability 3 5 2000 true]
  /\ appointments after = [mkAppointment 102 1 5 4000 CANCELLED]
  /\ professionals after = [mkProfessionalProfile 5 8]
  /\ map nt_message (notifications after)
     = ["hello"; "world"; "Professional Profile with ID 2 has been deleted."].
Proof. repeat split. Qed.

(** ** checkAvailability by date *)

Lemma for_append_returns {A B} (R : A -> B -> Prop) (body : A -> M B) rows :
  (forall x, In x rows -> exists y, R x y /\ forall db, body x db = (Returned y, db)) ->
  forall acc, exists ys,
    Forall2 R rows ys /\
    forall db, for_append body rows acc db = (Returned (acc ++ ys), db).
Proof.
  induction rows as [|x rows IH]; intros Hbody acc.
  - exists []. split; [constructor|]. intros db. cbn. now rewrite app_nil_r.
  - destruct (Hbody x (or_introl eq_refl)) as [y [Hy Hrun]].
    destruct (IH (fun z Hz => Hbody z (or_intror Hz)) (acc ++ [y])) as [ys [Hys Hrest]].
    exists (y :: ys). split; [now constructor|].
    intros db. cbn. unfold bind. rewrite Hrun, Hrest.
    now rewrite <- app_assoc.
Qed.

Lemma in_day_milliseconds d t :
  t mod 1000 = 0 -> in_day d t = spec_in_day d t.
Proof.
  intros Hms. unfold in_day, spec_in_day, combine_min, combine_max, spec_day_end,
    usec_per_day.
  apply Z.mod_divide in Hms; [|lia]. destruct Hms as [k ->].
  destruct (d * 86400000000 <=? k * 1000); [|reflexivity]. cbn [andb].
  destruct (Z.ltb_spec (k * 1000) (d * 86400000000 + (86400000000 - 1)));
    destruct (Z.leb_spec (k * 1000) (d * 86400000000 + 86399999000));
    try reflexivity; exfalso; lia.
Qed.

Lemma checkAvailability_lists env db day :
  fault env (Availability_find_many None day) db = None ->
  (forall a, In a (availabilities db) -> selected None day a = true ->
     exists p u, professional_of db a = Some p /\ profile_of db p = Some u) ->
  lists_exactly db (filter (selected None day) (availabilities db))
    (fst (checkAvailability env None day db)).
Proof.
  intros Hf Hrel.
  unfold checkAvailability, availability_find_many, gateway.
  unfold bind at 1. rewrite Hf.
  change (filter (check_where db None day) (availabilities db))
    with (filter (selected None day) (availabilities db)).
  destruct (for_append_returns
              (fun (row : AvailabilityIncl) e => entry_for db (fst row) e)
              check_entry
              (map (with_professional db)
                   (filter (selected None day) (availabilities db))))
    with (acc := @nil ProfessionalAvailability) as [ys [Hys Hret]].
  { intros row Hrow. apply in_map_iff in Hrow. destruct Hrow as [a [<- Ha]].
    apply filter_In in Ha. destruct Ha as [Ha Hs].
    destruct (Hrel a Ha Hs) as [p [u [Hp Hu]]].
    eexists. split.
    - exists p, u. cbn. repeat split; [exact Hp|exact Hu].
    - intros d. unfold check_entry, with_professional. rewrite Hp. cbn.
      unfold bind, deref, ret. cbn. rewrite Hu. reflexivity. }
  unfold bind, ret. rewrite Hret. cbn [fst snd app].
  exists ys. split; [reflexivity|].
  clear -Hys. revert ys Hys.
  induction (filter (selected None day) (availabilities db)) as [|a l IH];
    intros ys Hys; inversion Hys; subst; constructor; auto.
Qed.

(** X22: without a professionalId, [checkAvailability] (its query answered,
    and each selected row's professional and profile present) returns one
    entry per Availability row the date filter selects, in table order: every
    row when no date is given, and for a date the rows with
    00:00:00 <= datetime < 23:59:59.999999 of that day.  On a store whose
    datetimes are whole milliseconds these are exactly the rows in the
    inclusive day boundary [00:00:00, 23:59:59.999].  When no row is selected
    the result is the empty list, not an error. *)
Theorem checkAvailability_by_date env db day :
  fault env (Availability_find_many None day) db = None ->
  ((forall a, In a (availabilities db) -> selected None day a = true ->
      exists p u, professional_of db a = Some p /\ profile_of db p = Some u) ->
   lists_exactly db (filter (selected None day) (availabilities db))
     (fst (checkAvailability env None day db)) /\
   ((forall a, In a (availabilities db) -> av_datetime a mod 1000 = 0) ->
    lists_exactly db (filter (spec_selected None day) (availabilities db))
      (fst (checkAvailability env None day db))))
  /\
  (forall a,
     selected None day a = true <->
     (forall d, day = Some d -> combine_min d <= av_datetime a < combine_max d))
  /\
  ((forall a, In a (availabilities db) -> selected None day a = false) ->
   checkAvailability env None day db = (Returned (mkAvailabilityResponse []), db)).
Proof.
  intros Hf. split; [|split].
  - intros Hrel. split; [exact (checkAvailability_lists env db day Hf Hrel)|].
    intros Hms.
    assert (E : filter (spec_selected None day) (availabilities db)
                = filter (selected None day) (availabilities db)).
    { apply filter_ext_in. intros a Ha. unfold spec_selected, selected.
      destruct day as [d|]; [|reflexivity].
      now rewrite (in_day_milliseconds d _ (Hms a Ha)). }
    rewrite E. exact (checkAvailability_lists env db day Hf Hrel).
  - intros a. unfold selected, in_day. cbn [andb]. split.
    + intros Hd d ->. apply andb_true_iff in Hd. lia.
    + intros Hd. destruct day as [d|]; [|reflexivity].
      specialize (Hd d eq_refl). apply andb_true_iff. lia.
  - intros Hnone.
    unfold checkAvailability, availability_find_many, gateway.
    unfold bind at 1. rewrite Hf.
    change (filter (check_where db None day) (availabilities db))
      with (filter (selected None day) (availabilities db)).
    now rewrite (filter_nothing _ _ Hnone).
Qed.

Lemma checkAvailability_by_date_witness :
  lists_exactly db_day_zero
    (filter (spec_selected None (Some 0)) (availabilities db_day_zero))
    (fst (checkAvailability demo_env None (Some 0) db_day_zero)).
Proof.
  destruct (checkAvailability_by_date demo_env db_day_zero (Some 0) eq_refl)
    as [H _].
  apply H.
  - intros a Ha _. exists (mkProfessionalProfile 2 7), (mkUserProfile 7 "Ann" "Lee").
    cbn in Ha. repeat (destruct Ha as [<-|Ha]; [split; reflexivity|]). contradiction.
  - intros a Ha. cbn in Ha.
    repeat (destruct Ha as [<-|Ha]; [reflexivity|]). contradiction.
Defined.

(** The rows of day 0 in the example store: midnight and 23:59:59.999, not
    the next midnight. *)
Example day_zero_by_date :
  fst (checkAvailability demo_env None (Some 0) db_day_zero)
  = Returned (mkAvailabilityResponse
                [mkProfessionalAvailability 7 "Ann Lee" true (Some 0);
                 mkProfessionalAvailability 7 "Ann Lee" false None]).
Proof. reflexivity. Qed.
